(** * samsung-setup: a shallow embedding of [adb.py] and [main.py]

    The script drives an Android device through the [adb] executable:
    every function of [adb.py] builds an argument list, hands it to
    [subprocess.run] and, for a few of them, inspects the text that
    comes back.  [main.py] iterates three package lists over those
    functions.

    The development is organised as the script is:
    - [py]   : the Python builtins the script calls on [str] and [int];
    - [pathlib]: the one path operation of [main.py];
    - [etree]: the part of [xml.etree.ElementTree] the locator uses;
    - the host interface (what lies outside the script) and the
      state-and-exception monad the statements run in;
    - [adb]  : the functions of [adb.py];
    - [main] : the functions of [main.py];
    - the properties.

    Modelling conventions.  A Python [str] is a [string]; each [ascii]
    stands for the code point of the same number, so only code points
    below 256 are represented.  A Python [int] is a [Z]; the
    interpreter's configurable limit on the length of a decimal literal
    handed to [int()] is a runtime setting and is not part of the
    model. *)

From Stdlib Require Import ZArith List String Ascii Bool Lia.
From Stdlib Require Import Decimal DecimalString DecimalPos DecimalZ.
Import ListNotations.

#[local] Open Scope string_scope.
#[local] Open Scope Z_scope.

(** ** Exceptions *)

(** The exceptions the modelled statements can raise.  The script
    never inspects an exception: every handler is a bare [except:]. *)
Inductive exn : Type :=
| CalledProcessError   (* subprocess.run(check=True): non-zero exit status *)
| OSError              (* the executable or a path could not be used *)
| EOFError             (* input() at end of file *)
| ParseError           (* ElementTree.fromstring on malformed XML *)
| ValueError           (* int() of a non-number, unpacking the wrong count *)
| AttributeError       (* a method called on None *)
| TypeError.           (* unpacking None *)

(** A computation without side effects that may raise. *)
Definition result (A : Type) : Type := (exn + A)%type.

(** ** Python builtins *)

Module py.

Definition LF : ascii := "010"%char.
Definition CR : ascii := "013"%char.

Definition nl : string := String LF "".

(** [c in chars], for a one-character [c]. *)
Fixpoint char_in (c : ascii) (chars : string) : bool :=
  match chars with
  | "" => false
  | String d r => Ascii.eqb c d || char_in c r
  end.

(** [s.startswith(p)] *)
Fixpoint startswith (p s : string) : bool :=
  match p, s with
  | "", _ => true
  | String _ _, "" => false
  | String a p', String b s' => Ascii.eqb a b && startswith p' s'
  end.

(** [needle in hay] on strings: substring containment. *)
Fixpoint str_in (needle hay : string) : bool :=
  startswith needle hay ||
  match hay with
  | "" => false
  | String _ r => str_in needle r
  end.

(** [s.lstrip(chars)] *)
Fixpoint lstrip (chars s : string) : string :=
  match s with
  | "" => ""
  | String c r => if char_in c chars then lstrip chars r else s
  end.

(** [s.rstrip(chars)] *)
Fixpoint rstrip (chars s : string) : string :=
  match s with
  | "" => ""
  | String c r =>
      match rstrip chars r with
      | "" => if char_in c chars then "" else String c ""
      | r' => String c r'
      end
  end.

(** [s.strip(chars)]: leading and trailing characters that occur in
    [chars] are removed. *)
Definition strip (chars s : string) : string :=
  rstrip chars (lstrip chars s).

(** The characters [str.isspace] accepts, among code points below 256. *)
Definition whitespace : string :=
  String "009" (String "010" (String "011" (String "012" (String "013"
  (String "028" (String "029" (String "030" (String "031" (String "032"
  (String "133" (String "160" ""))))))))))).

(** [s.strip()] *)
Definition strip_ws (s : string) : string := strip whitespace s.

(** [s.replace(old, new)], every occurrence, left to right, without
    overlap.  [skip] counts the characters of a matched [old] that are
    still to be passed over. *)
Fixpoint replace_from (old new : string) (skip : nat) (s : string) : string :=
  match s with
  | "" => ""
  | String c r =>
      match skip with
      | S k => replace_from old new k r
      | O =>
          if startswith old s
          then new ++ replace_from old new (Nat.pred (String.length old)) r
          else String c (replace_from old new O r)
      end
  end.

(** With an empty [old], Python puts [new] before every character and
    at the end. *)
Fixpoint intersperse (new s : string) : string :=
  match s with
  | "" => new
  | String c r => new ++ String c (intersperse new r)
  end.

Definition replace (old new s : string) : string :=
  match old with
  | "" => intersperse new s
  | _ => replace_from old new O s
  end.

(** [s.split(sep)] for a non-empty [sep]: the pieces between the
    occurrences of [sep]; the result is never empty. *)
Fixpoint split_from (sep : string) (skip : nat) (s : string) : list string :=
  match s with
  | "" => [""]
  | String c r =>
      match skip with
      | S k => split_from sep k r
      | O =>
          if startswith sep s
          then "" :: split_from sep (Nat.pred (String.length sep)) r
          else match split_from sep O r with
               | p :: ps => String c p :: ps
               | [] => [String c ""]
               end
      end
  end.

(** An empty separator is a [ValueError]. *)
Definition split (sep s : string) : result (list string) :=
  match sep with
  | "" => inl ValueError
  | _ => inr (split_from sep O s)
  end.

(** Line boundaries of [str.splitlines], among code points below 256. *)
Definition linebreaks : string :=
  String "010" (String "011" (String "012" (String "013"
  (String "028" (String "029" (String "030" (String "133" ""))))))).

(** [s.splitlines()]: [after_cr] tells that the previous character was
    a carriage return, so that a line feed right after it belongs to
    the same boundary.  No empty last line is produced. *)
Fixpoint splitlines_from (after_cr : bool) (s : string) : list string :=
  match s with
  | "" => []
  | String c r =>
      if after_cr && Ascii.eqb c LF then splitlines_from false r
      else if char_in c linebreaks
      then "" :: splitlines_from (Ascii.eqb c CR) r
      else match splitlines_from false r with
           | p :: ps => String c p :: ps
           | [] => [String c ""]
           end
  end.

Definition splitlines (s : string) : list string := splitlines_from false s.

(** [l[1:]] *)
Definition slice_from_1 {A : Type} (l : list A) : list A := List.tl l.

(** [any(p(x) for x in l)] *)
Definition any {A : Type} (p : A -> bool) (l : list A) : bool := existsb p l.

(** The value of a decimal digit. *)
Definition digit_value (c : ascii) : option Z :=
  let n := Z.of_nat (nat_of_ascii c) in
  if (48 <=? n) && (n <=? 57) then Some (n - 48) else None.

(** The digits of an [int()] literal: decimal digits, with single
    underscores allowed between two digits.  [acc] is the value read so
    far and [after_digit] tells that the previous character was a
    digit. *)
Fixpoint int_digits (acc : Z) (after_digit : bool) (s : string) : option Z :=
  match s with
  | "" => if after_digit then Some acc else None
  | String c r =>
      match digit_value c with
      | Some d => int_digits (10 * acc + d) true r
      | None =>
          if Ascii.eqb c "_" && after_digit
          then int_digits acc false r
          else None
      end
  end.

(** The whitespace [int()] drops around a literal, among code points
    below 256: the six ASCII whitespace characters and the spaces
    U+0085 and U+00A0.  The separators U+001C to U+001F, which
    [str.strip()] removes, are not among them. *)
Definition int_whitespace : string :=
  String "009" (String "010" (String "011" (String "012" (String "013"
  (String "032" (String "133" (String "160" ""))))))).

(** [int(s)]: surrounding whitespace is dropped, then an optional sign,
    then the digits; anything else is a [ValueError]. *)
Definition int (s : string) : result Z :=
  let t := strip int_whitespace s in
  let '(sign, body) :=
    match t with
    | String "-" r => (-1, r)
    | String "+" r => (1, r)
    | _ => (1, t)
    end in
  match int_digits 0 false body with
  | Some v => inr (sign * v)
  | None => inl ValueError
  end.

(** [str(n)] for an [int]. *)
Definition str (n : Z) : string := NilZero.string_of_int (Z.to_int n).

(** [map(f, l)] consumed to the end, when [f] may raise: the first
    exception wins. *)
Fixpoint map_result {A B : Type} (f : A -> result B) (l : list A)
  : result (list B) :=
  match l with
  | [] => inr []
  | x :: xs =>
      match f x with
      | inl e => inl e
      | inr y =>
          match map_result f xs with
          | inl e => inl e
          | inr ys => inr (y :: ys)
          end
      end
  end.

End py.

(** ** [pathlib] *)

Module pathlib.

(** [s.endswith(c)] for a one-character [c]. *)
Fixpoint ends_with (c : ascii) (s : string) : bool :=
  match s with
  | "" => false
  | String a "" => Ascii.eqb a c
  | String _ r => ends_with c r
  end.

(** [str(Path(p) / name)] for a path [p] as [str] renders it and a
    plain file name: the current directory [.] gives the name alone, a
    path that ends with a slash (the root) takes the name as it is,
    any other path takes a slash and the name. *)
Definition div (p name : string) : string :=
  if String.eqb p "." then name
  else if ends_with "/" p then p ++ name
  else p ++ "/" ++ name.

End pathlib.

(** ** The part of [xml.etree.ElementTree] the locator uses *)

Module etree.

(** An element: its tag, its attribute dictionary and its children in
    document order.  An XML element has no two attributes of the same
    name, so the dictionary is read by its first binding. *)
#[warnings="-register-all"]
Inductive Element : Type :=
| Elem (tag : string) (attrib : list (string * string))
       (children : list Element).

Definition tag (e : Element) : string :=
  match e with Elem t _ _ => t end.

Definition attrib (e : Element) : list (string * string) :=
  match e with Elem _ a _ => a end.

Definition children (e : Element) : list Element :=
  match e with Elem _ _ c => c end.

(** [d.get(k)] *)
Fixpoint get (k : string) (d : list (string * string)) : option string :=
  match d with
  | [] => None
  | (k', v) :: d' => if String.eqb k k' then Some v else get k d'
  end.

(** [e.iter()]: the element, then its descendants, in document order. *)
Fixpoint iter (e : Element) : list Element :=
  match e with
  | Elem _ _ cs => e :: flat_map iter cs
  end.

(** [root.findall(".//" + t)]: every descendant of [root] (the root
    itself left out) whose tag is [t], in document order. *)
Definition findall_descendants (t : string) (root : Element) : list Element :=
  filter (fun e => String.eqb (tag e) t) (flat_map iter (children root)).

End etree.

(** ** What lies outside the script *)

(** What the script does to its surroundings, in the order it does it. *)
Inductive Event : Type :=
| Run (command : list string)          (* subprocess.run(command, ...) *)
| Input (prompt : string)              (* input(prompt) *)
| Print (text : string) (end_ : string)  (* print(text, end=end_) *)
| Sleep (seconds : Z)                  (* time.sleep(seconds) *)
| Mkdir (path : string).               (* Path(path).mkdir(parents=True, exist_ok=True) *)

(** The surroundings: the device behind [adb], the terminal, the file
    system and the XML parser.  A [World] is whatever state they have;
    every call may change it and may raise. *)
Record Host : Type := {
  World : Type;
  (* subprocess.run(command, check=True, capture_output=True, text=True):
     the captured standard output, or the exception raised *)
  subprocess_run : list string -> World -> result string * World;
  (* input(prompt) *)
  stdin_input : string -> World -> result string * World;
  (* str(Path.home()) *)
  path_home : string;
  (* Path(p).mkdir(parents=True, exist_ok=True) *)
  path_mkdir : string -> World -> result unit * World;
  (* ElementTree.fromstring: the root element, or None for a document
     that is not well-formed XML *)
  fromstring : string -> option etree.Element
}.

(** The state a statement runs in: the surroundings and the events so
    far. *)
Record State (h : Host) : Type := mkState {
  world : World h;
  trace : list Event
}.
Arguments mkState {h} _ _.
Arguments world {h} _.
Arguments trace {h} _.

(** A statement: from a state to a value or an exception, and the state
    it leaves. *)
Definition M (h : Host) (A : Type) : Type := State h -> result A * State h.

Definition ret {h : Host} {A : Type} (a : A) : M h A :=
  fun s => (inr a, s).

Definition raise {h : Host} {A : Type} (e : exn) : M h A :=
  fun s => (inl e, s).

Definition bind {h : Host} {A B : Type} (m : M h A) (k : A -> M h B) : M h B :=
  fun s =>
    match m s with
    | (inl e, s') => (inl e, s')
    | (inr a, s') => k a s'
    end.

Notation "x <- m ;; k" := (bind m (fun x => k))
  (at level 61, m at next level, right associativity).
Notation "m ;; k" := (bind m (fun _ => k))
  (at level 61, right associativity).

(** An expression that may raise, as a statement. *)
Definition lift {h : Host} {A : Type} (r : result A) : M h A :=
  fun s => (r, s).

(** A call into the surroundings, recorded in the trace. *)
Definition call {h : Host} {A : Type} (ev : Event)
  (f : World h -> result A * World h) : M h A :=
  fun s =>
    let '(r, w) := f (world s) in
    (r, mkState w (trace s ++ [ev])%list).

Definition print {h : Host} (text end_ : string) : M h unit :=
  fun s => (inr tt, mkState (world s) (trace s ++ [Print text end_])%list).

Definition sleep {h : Host} (seconds : Z) : M h unit :=
  fun s => (inr tt, mkState (world s) (trace s ++ [Sleep seconds])%list).

Definition input {h : Host} (prompt : string) : M h string :=
  call (Input prompt) (stdin_input h prompt).

Definition mkdir {h : Host} (path : string) : M h unit :=
  call (Mkdir path) (path_mkdir h path).

(** [try: body / except: handler] with a bare [except]. *)
Definition try_except {h : Host} {A : Type} (body handler : M h A) : M h A :=
  fun s =>
    match body s with
    | (inl _, s') => handler s'
    | (inr a, s') => (inr a, s')
    end.

(** [try: body / except: handler / else: orelse] *)
Definition try_except_else {h : Host} {A B : Type}
  (body : M h A) (handler orelse : M h B) : M h B :=
  fun s =>
    match body s with
    | (inl _, s') => handler s'
    | (inr _, s') => orelse s'
    end.

(** [try: body / finally: final]: [final] always runs; what it raises
    replaces the outcome of [body]. *)
Definition try_finally {h : Host} {A : Type} (body : M h A) (final : M h unit)
  : M h A :=
  fun s =>
    let '(r, s') := body s in
    match final s' with
    | (inl e, s'') => (inl e, s'')
    | (inr _, s'') => (r, s'')
    end.

(** [for x in l: body x], with no [break]. *)
Fixpoint for_each {h : Host} {A : Type} (l : list A) (body : A -> M h unit)
  : M h unit :=
  match l with
  | [] => ret tt
  | x :: xs => body x ;; for_each xs body
  end.

(** ** [adb.py] *)

Module adb.
Section WithHost.
Context {h : Host}.

(** [run_adb_command]: the standard output of the command; a non-zero
    exit status raises. *)
Definition run_adb_command (command : list string) : M h string :=
  call (Run command) (subprocess_run h command).

Definition pair (url pairing_code : string) : M h unit :=
  run_adb_command ["adb"; "pair"; url; pairing_code] ;;
  ret tt.

(** [extract]: [target] is the directory as [str] renders it. *)
Definition extract (package_name target : string) : M h unit :=
  stdout <- run_adb_command ["adb"; "shell"; "pm"; "path"; package_name] ;;
  pieces <- lift (py.split py.nl
                    (py.replace "package:" "" (py.strip_ws stdout))) ;;
  let apk_path := hd "" pieces in
  match apk_path with
  | "" => ret tt
  | _ =>
      run_adb_command
        ["adb"; "pull"; apk_path; target ++ "/" ++ package_name ++ ".apk"] ;;
      ret tt
  end.

Definition connect (url : string) : M h unit :=
  run_adb_command ["adb"; "connect"; url] ;;
  ret tt.

Definition is_connected : M h bool :=
  stdout <- run_adb_command ["adb"; "devices"] ;;
  let deviceinfo_list := py.slice_from_1 (py.splitlines stdout) in
  ret (py.any (fun deviceinfo => py.str_in "device" deviceinfo)
              deviceinfo_list).

Definition is_installed (package_name : string) : M h bool :=
  stdout <- run_adb_command
              ["adb"; "shell"; "pm"; "list"; "packages"; package_name] ;;
  ret (py.str_in package_name stdout).

Definition is_enabled (package_name : string) : M h bool :=
  stdout <- run_adb_command
              ["adb"; "shell"; "pm"; "list"; "packages"; "-e"] ;;
  ret (py.str_in package_name stdout).

Definition install (apk_path : string) : M h unit :=
  run_adb_command ["adb"; "install"; apk_path] ;;
  ret tt.

Definition clear_data (package_name : string) : M h unit :=
  run_adb_command ["adb"; "shell"; "pm"; "clear"; package_name] ;;
  ret tt.

(** [uninstall]: [try / except: pass / finally]. *)
Definition uninstall (package_name : string) : M h unit :=
  try_finally
    (try_except
       (run_adb_command ["adb"; "uninstall"; package_name] ;; ret tt)
       (ret tt))
    (run_adb_command ["adb"; "uninstall"; "--user"; "0"; package_name] ;;
     ret tt).

Definition enable (package_name : string) : M h unit :=
  run_adb_command ["adb"; "shell"; "pm"; "enable"; package_name] ;;
  ret tt.

Definition disable (package_name : string) : M h unit :=
  try_finally
    (try_except
       (run_adb_command ["adb"; "uninstall"; package_name] ;; ret tt)
       (ret tt))
    (run_adb_command ["adb"; "shell"; "pm"; "disable-user"; package_name] ;;
     ret tt).

Definition tap (x y : Z) : M h unit :=
  run_adb_command ["adb"; "shell"; "input"; "tap"; py.str x; py.str y] ;;
  ret tt.

Definition max_attempts : nat := 5.

(** [next((node for node in nodes if node.attrib.get("text") == "Install"), None)] *)
Definition is_install (node : etree.Element) : bool :=
  match etree.get "text" (etree.attrib node) with
  | Some text => String.eqb text "Install"
  | None => false
  end.

Definition next_install (nodes : list etree.Element) : option etree.Element :=
  find is_install nodes.

(** The [for i in range(max_attempts)] loop of [find_install_button],
    with [attempts] iterations left: the button that made it [break],
    or [None] when it ran into its [else]. *)
Fixpoint find_install_loop (attempts : nat) : M h (option etree.Element) :=
  match attempts with
  | O => ret None
  | S attempts' =>
      sleep 1 ;;
      run_adb_command ["adb"; "shell"; "uiautomator"; "dump"] ;;
      stdout <- run_adb_command
                  ["adb"; "shell"; "cat"; "/sdcard/window_dump.xml"] ;;
      match fromstring h stdout with
      | None => raise ParseError
      | Some root =>
          let nodes := etree.findall_descendants "node" root in
          match next_install nodes with
          | Some install_button => ret (Some install_button)
          | None => find_install_loop attempts'
          end
      end
  end.

(** The statements after the loop: the four integers of the [bounds]
    attribute and the middle of the rectangle. *)
Definition bounds_center (install_button : etree.Element) : result (Z * Z) :=
  match etree.get "bounds" (etree.attrib install_button) with
  | None => inl AttributeError
  | Some bounds =>
      match py.split "," (py.strip "[]" (py.replace "][" "," bounds)) with
      | inl e => inl e
      | inr pieces =>
          match py.map_result py.int pieces with
          | inl e => inl e
          | inr [x1; y1; x2; y2] =>
              let x := (x1 + x2) / 2 in
              let y := (y1 + y2) / 2 in
              inr (x, y)
          | inr _ => inl ValueError
          end
      end
  end.

Definition find_install_button : M h (option (Z * Z)) :=
  found <- find_install_loop max_attempts ;;
  match found with
  | None => ret None
  | Some install_button =>
      xy <- lift (bounds_center install_button) ;;
      ret (Some xy)
  end.

Definition click_install_in_playstore : M h unit :=
  found <- find_install_button ;;
  match found with
  | None => raise TypeError
  | Some (x, y) => tap x y
  end.

Definition navigate_playstore (package_name : string) : M h unit :=
  run_adb_command
    ["adb"; "shell"; "am"; "start"; "-a"; "android.intent.action.VIEW";
     "-d"; "market://details?id=" ++ package_name] ;;
  ret tt.

Definition install_from_playstore (package_name : string) : M h unit :=
  navigate_playstore package_name ;;
  click_install_in_playstore.

End WithHost.
End adb.

(** ** [main.py] *)

Module main.
Section WithHost.
Context {h : Host}.

(** The three lists of the [packages] module, which the script imports
    and this development takes as given. *)
Variables to_freezze to_install_from_playstore to_uninstall : list string.

Definition connect : M h unit :=
  connected <- adb.is_connected ;;
  if negb connected then
    url <- input "URL: " ;;
    adb.connect url ;;
    connected' <- adb.is_connected ;;
    if negb connected' then
      print "Seems like the device isn't paired." py.nl ;;
      pairing_url <- input "Pairing URL: " ;;
      code <- input "Pairing code: " ;;
      adb.pair pairing_url code ;;
      adb.connect url
    else ret tt
  else ret tt.

(** The body of the loop of [freeze], for one package. *)
Definition freeze_package (package : string) : M h unit :=
  enabled <- adb.is_enabled package ;;
  if negb enabled then ret tt
  else
    print ("Disabling: " ++ package ++ "...") " " ;;
    try_except_else
      (adb.clear_data package ;; adb.disable package)
      (print "Failed!!!" py.nl)
      (print "Done!" py.nl).

Definition freeze : M h unit :=
  for_each to_freezze freeze_package.

(** The body of the loop of [uninstall], for one package. *)
Definition uninstall_package (target package : string) : M h unit :=
  installed <- adb.is_installed package ;;
  if negb installed then ret tt
  else
    print ("Uninstalling: " ++ package ++ "...") " " ;;
    try_except_else
      (adb.clear_data package ;;
       adb.extract package target ;;
       adb.uninstall package)
      (print "Failed!!!" py.nl)
      (print "Done" py.nl).

Definition uninstall : M h unit :=
  let target := pathlib.div (path_home h) "sapps" in
  mkdir target ;;
  for_each to_uninstall (uninstall_package target).

(** The body of the loop of [install_from_playstore], for one package. *)
Definition install_package (package : string) : M h unit :=
  installed <- adb.is_installed package ;;
  if installed then ret tt
  else
    print ("Installing: " ++ package ++ "...") " " ;;
    try_except_else
      (adb.install_from_playstore package)
      (print "Failed!!!" py.nl)
      (print "Done" py.nl).

Definition install_from_playstore : M h unit :=
  for_each to_install_from_playstore install_package.

Definition main : M h unit :=
  connect ;;
  freeze ;;
  uninstall ;;
  install_from_playstore.

End WithHost.
End main.

(** ** Vocabulary of the statements *)

(** Every character of [s] satisfies [p]. *)
Fixpoint all_chars (p : ascii -> bool) (s : string) : bool :=
  match s with
  | "" => true
  | String c r => p c && all_chars p r
  end.

(** The characters [str] renders an [int] with. *)
Definition num_char (c : ascii) : bool := py.char_in c "-0123456789".


(** The text of a [bounds] attribute for the rectangle from
    [(x1, y1)] to [(x2, y2)], as the UI dump writes it. *)
Definition bounds_string (x1 y1 x2 y2 : Z) : string :=
  "[" ++ py.str x1 ++ "," ++ py.str y1 ++ "]["
      ++ py.str x2 ++ "," ++ py.str y2 ++ "]".

(** The same text around four arbitrary fields. *)
Definition bounds_text (s1 s2 s3 s4 : string) : string :=
  "[" ++ s1 ++ "," ++ s2 ++ "][" ++ s3 ++ "," ++ s4 ++ "]".

(** The value of a decimal numeral read from its most significant
    digit, [acc] being the value of the digits before it. *)
Fixpoint horner (acc : Z) (d : uint) : Z :=
  match d with
  | Nil => acc
  | D0 d' => horner (10 * acc + 0) d'
  | D1 d' => horner (10 * acc + 1) d'
  | D2 d' => horner (10 * acc + 2) d'
  | D3 d' => horner (10 * acc + 3) d'
  | D4 d' => horner (10 * acc + 4) d'
  | D5 d' => horner (10 * acc + 5) d'
  | D6 d' => horner (10 * acc + 6) d'
  | D7 d' => horner (10 * acc + 7) d'
  | D8 d' => horner (10 * acc + 8) d'
  | D9 d' => horner (10 * acc + 9) d'
  end.

Section LocatorVocabulary.
Context {h : Host}.

(** The nodes of a UI-hierarchy document, in document order. *)
Definition ui_nodes (root : etree.Element) : list etree.Element :=
  etree.findall_descendants "node" root.

(** The text label of a node. *)
Definition label (node : etree.Element) : option string :=
  etree.get "text" (etree.attrib node).

(** No node of the document is labelled [Install]. *)
Definition no_install (root : etree.Element) : Prop :=
  Forall (fun node => label node <> Some "Install") (ui_nodes root).

Definition dump_command : list string :=
  ["adb"; "shell"; "uiautomator"; "dump"].

Definition cat_command : list string :=
  ["adb"; "shell"; "cat"; "/sdcard/window_dump.xml"].

(** One retrieval of the UI hierarchy: in world [w] both commands exit
    with status zero and the text of the second one parses to [root];
    [w'] is the world afterwards. *)
Definition retrieves (w : World h) (root : etree.Element) (w' : World h)
  : Prop :=
  exists out1 w1 stdout,
    subprocess_run h dump_command w = (inr out1, w1) /\
    subprocess_run h cat_command w1 = (inr stdout, w') /\
    fromstring h stdout = Some root.

(** Successive retrievals yield the documents [roots], in order. *)
Inductive serves : World h -> list etree.Element -> World h -> Prop :=
| serves_nil (w : World h) : serves w [] w
| serves_cons (w w1 w' : World h) (root : etree.Element)
    (roots : list etree.Element) :
    retrieves w root w1 -> serves w1 roots w' -> serves w (root :: roots) w'.

(** What one attempt of the locator does to its surroundings. *)
Definition attempt_events : list Event :=
  [Sleep 1; Run dump_command; Run cat_command].

(** What [n] attempts do. *)
Fixpoint attempts_events (n : nat) : list Event :=
  match n with
  | O => []
  | S n' => (attempt_events ++ attempts_events n')%list
  end.

End LocatorVocabulary.

(** ** Concrete surroundings *)

(** A host that follows a script: the [n]-th call of [subprocess.run]
    gets the [n]-th reply whatever the command, the [n]-th [input] the
    [n]-th line; when the script is over, calls raise.  Directories can
    always be made. *)
Definition scripted (parse : string -> option etree.Element) : Host := {|
  World := list (result string) * list string;
  subprocess_run := fun _ w =>
    match fst w with
    | [] => (inl OSError, w)
    | reply :: replies => (reply, (replies, snd w))
    end;
  stdin_input := fun _ w =>
    match snd w with
    | [] => (inl EOFError, w)
    | line :: lines => (inr line, (fst w, lines))
    end;
  path_home := "/home/user";
  path_mkdir := fun _ w => (inr tt, w);
  fromstring := parse
|}.

(** A screen whose only labels are [install] and [Open]. *)
Definition screen_without_button : etree.Element :=
  etree.Elem "hierarchy" [("rotation", "0")]
    [etree.Elem "node" [("text", "install"); ("bounds", "[0,0][50,50]")] [];
     etree.Elem "node" [("text", "Open"); ("bounds", "[0,50][50,100]")] []].

(** A screen with two nodes labelled [Install], the first one nested
    below a node labelled [install]. *)
Definition screen_with_two_buttons : etree.Element :=
  etree.Elem "hierarchy" [("rotation", "0")]
    [etree.Elem "node" [("text", "install"); ("bounds", "[0,0][50,50]")]
       [etree.Elem "node" [("text", "Install"); ("bounds", "[10,20][30,40]")] []];
     etree.Elem "node" [("text", "Install"); ("bounds", "[100,200][301,400]")] []].

(** A stand-in for the XML parser that knows two documents by name and
    rejects everything else. *)
Definition two_documents (s : string) : option etree.Element :=
  if String.eqb s "<without/>" then Some screen_without_button
  else if String.eqb s "<two/>" then Some screen_with_two_buttons
  else None.

(** The replies of a device to one retrieval of the document [name]. *)
Definition retrieval (name : string) : list (result string) :=
  [inr "UI hierchary dumped to: /sdcard/window_dump.xml"; inr name].

(** The replies to [n] retrievals of the document [name]. *)
Fixpoint retrievals (n : nat) (name : string) : list (result string) :=
  match n with
  | O => []
  | S n' => (retrieval name ++ retrievals n' name)%list
  end.

(** The command of the installed-check. *)
Definition listing_installed (package_name : string) : list string :=
  ["adb"; "shell"; "pm"; "list"; "packages"; package_name].

(** The command of the enabled-check. *)
Definition listing_enabled : list string :=
  ["adb"; "shell"; "pm"; "list"; "packages"; "-e"].

(** The package identifiers a listing names, one [package:] line each. *)
Definition listed_packages (stdout : string) : list string :=
  map (py.replace "package:" "") (py.splitlines stdout).

(** The failure marker of the three loops. *)
Definition failed_marker : Event := Print "Failed!!!" py.nl.

(** A device on which both listings always succeed and name every
    package asked for, and every other command fails. *)
Definition failing_device : Host := {|
  World := unit;
  subprocess_run := fun command w =>
    match command with
    | ["adb"; "shell"; "pm"; "list"; "packages"; _] =>
        (inr "package:com.sec.android.app.samsungapps", w)
    | _ => (inl CalledProcessError, w)
    end;
  stdin_input := fun _ w => (inl EOFError, w);
  path_home := "/home/user";
  path_mkdir := fun _ w => (inr tt, w);
  fromstring := fun _ => None
|}.

(** The state a run starts in on a scripted host: the replies and the
    input lines to come, and no event yet. *)
Definition start (parse : string -> option etree.Element)
  (replies : list (result string)) (lines : list string)
  : State (scripted parse) :=
  @mkState (scripted parse) (replies, lines) [].

(** The state a scripted run has reached when its script is used up. *)
Definition finished (parse : string -> option etree.Element)
  (events : list Event) : State (scripted parse) :=
  @mkState (scripted parse) ([], []) events.

(** What [adb devices] prints with one device attached. *)
Definition one_device_attached : string :=
  "List of devices attached" ++ py.nl ++
  "192.168.1.20:5555" ++ String "009" "device" ++ py.nl ++ py.nl.

(** The first node of [screen_with_two_buttons], labelled [install]. *)
Definition lowercase_node : etree.Element :=
  etree.Elem "node" [("text", "install"); ("bounds", "[0,0][50,50]")]
    [etree.Elem "node" [("text", "Install"); ("bounds", "[10,20][30,40]")] []].

(** Its child, the first node labelled [Install]. *)
Definition first_button : etree.Element :=
  etree.Elem "node" [("text", "Install"); ("bounds", "[10,20][30,40]")] [].

(** The second node labelled [Install]. *)
Definition second_button : etree.Element :=
  etree.Elem "node" [("text", "Install"); ("bounds", "[100,200][301,400]")] [].

(** ** Vocabulary of the further properties *)

(** The command [extract] asks the APK path with. *)
Definition path_command (package_name : string) : list string :=
  ["adb"; "shell"; "pm"; "path"; package_name].

(** The command [extract] copies the APK with. *)
Definition pull_command (apk_path target package_name : string)
  : list string :=
  ["adb"; "pull"; apk_path; target ++ "/" ++ package_name ++ ".apk"].

(** A character a path printed by [pm path] is made of here: no
    whitespace and no colon. *)
Definition path_char (c : ascii) : bool :=
  negb (py.char_in c py.whitespace) && negb (Ascii.eqb c ":").

(** The text is over, or goes on with a new line. *)
Definition ends_line (rest : string) : Prop :=
  rest = "" \/ exists r, rest = String py.LF r.

(** The statement [m] only adds events to the trace, and every event
    it adds satisfies [P]. *)
Definition appends {h : Host} {A : Type} (P : Event -> Prop) (m : M h A)
  : Prop :=
  forall s : State h,
    exists events,
      trace (snd (m s)) = (trace s ++ events)%list /\ Forall P events.

(** The event is not the run of an executable other than [adb]. *)
Definition runs_adb (e : Event) : Prop :=
  match e with
  | Run command => hd_error command = Some "adb"
  | _ => True
  end.

(** The event is not a read of standard input. *)
Definition no_input (e : Event) : Prop :=
  match e with
  | Input _ => False
  | _ => True
  end.

(** The directory the APKs are copied to. *)
Definition backup_directory (h : Host) : string :=
  pathlib.div (path_home h) "sapps".

(** A device that is attached and lists one package as installed and
    enabled, on which every command that changes something fails. *)
Definition attached_failing_device : Host := {|
  World := unit;
  subprocess_run := fun command w =>
    match command with
    | ["adb"; "devices"] => (inr one_device_attached, w)
    | ["adb"; "shell"; "pm"; "list"; "packages"; _] =>
        (inr "package:com.sec.android.app.samsungapps", w)
    | _ => (inl CalledProcessError, w)
    end;
  stdin_input := fun _ w => (inl EOFError, w);
  path_home := "/home/user";
  path_mkdir := fun _ w => (inr tt, w);
  fromstring := fun _ => None
|}.

(** A device the script has already set up: it is attached, none of
    the enabled packages is a Samsung one, and the only package a
    filtered listing finds is Firefox.  Any other command fails. *)
Definition settled_device : Host := {|
  World := unit;
  subprocess_run := fun command w =>
    match command with
    | ["adb"; "devices"] => (inr one_device_attached, w)
    | ["adb"; "shell"; "pm"; "list"; "packages"; "-e"] =>
        (inr "package:com.android.settings", w)
    | ["adb"; "shell"; "pm"; "list"; "packages"; "org.mozilla.firefox"] =>
        (inr "package:org.mozilla.firefox", w)
    | ["adb"; "shell"; "pm"; "list"; "packages"; _] => (inr "", w)
    | _ => (inl CalledProcessError, w)
    end;
  stdin_input := fun _ w => (inl EOFError, w);
  path_home := "/home/user";
  path_mkdir := fun _ w => (inr tt, w);
  fromstring := fun _ => None
|}.

(** Everything [connect] can do, in order, for the address [url], the
    pairing address [pairing_url] and the pairing code [code]. *)
Definition connect_events (url pairing_url code : string) : list Event :=
  [Run ["adb"; "devices"];
   Input "URL: ";
   Run ["adb"; "connect"; url];
   Run ["adb"; "devices"];
   Print "Seems like the device isn't paired." py.nl;
   Input "Pairing URL: ";
   Input "Pairing code: ";
   Run ["adb"; "pair"; pairing_url; code];
   Run ["adb"; "connect"; url]].

(** The command [navigate_playstore] opens the page of a package with. *)
Definition navigate_command (package_name : string) : list string :=
  ["adb"; "shell"; "am"; "start"; "-a"; "android.intent.action.VIEW"; "-d";
   "market://details?id=" ++ package_name].

(** The command [tap] touches the screen with. *)
Definition tap_command (x y : Z) : list string :=
  ["adb"; "shell"; "input"; "tap"; py.str x; py.str y].

(** * The definitions at work *)

Example strip_brackets : py.strip "[]" "[[a]b]]" = "a]b".
Proof. reflexivity. Qed.

Example replace_separator :
  py.replace "][" "," "[10,20][30,40]" = "[10,20,30,40]".
Proof. reflexivity. Qed.

Example replace_empty_old : py.replace "" "-" "ab" = "-a-b-".
Proof. reflexivity. Qed.

Example split_keeps_empty_pieces :
  py.split "," "10,,20," = inr ["10"; ""; "20"; ""].
Proof. reflexivity. Qed.

Example int_literals :
  (py.int " -1_0", py.int "1__0", py.int "", py.int "+7", py.int "1_",
   py.int "007", py.int "- 1")
  = (inr (-10), inl ValueError, inl ValueError, inr 7, inl ValueError,
     inr 7, inl ValueError).
Proof. reflexivity. Qed.

Example int_whitespace_is_not_strip_whitespace :
  (py.int (String "028" "10"), py.int (String "160" "10"),
   py.strip_ws (String "028" "10"))
  = (inl ValueError, inr 10, "10").
Proof. reflexivity. Qed.

Example backup_directories :
  (pathlib.div "/home/user" "sapps", pathlib.div "/" "sapps",
   pathlib.div "." "sapps")
  = ("/home/user/sapps", "/sapps", "sapps").
Proof. reflexivity. Qed.

Example str_of_ints : (py.str 0, py.str (-12), py.str 340) = ("0", "-12", "340").
Proof. reflexivity. Qed.

Example splitlines_boundaries :
  py.splitlines
    ("a" ++ String py.CR py.nl ++ "b" ++ py.nl ++ py.nl)
  = ["a"; "b"; ""].
Proof. reflexivity. Qed.

Example substring_test :
  (py.str_in "device" "emulator-5554 device", py.str_in "device" "offline")
  = (true, false).
Proof. reflexivity. Qed.

Example nodes_in_document_order :
  ui_nodes screen_with_two_buttons
  = [lowercase_node; first_button; second_button].
Proof. reflexivity. Qed.

Example bounds_string_text : bounds_string 10 20 30 40 = "[10,20][30,40]".
Proof. reflexivity. Qed.

(** A device that is not attached at first: [connect] asks for the
    address, connects, and finds the device attached. *)
Example connect_asks_for_the_address :
  main.connect
    (start two_documents
       [inr ("List of devices attached" ++ py.nl);
        inr "connected to 192.168.1.20:5555";
        inr one_device_attached]
       ["192.168.1.20:5555"])
  = (inr tt,
     finished two_documents
       [Run ["adb"; "devices"]; Input "URL: ";
        Run ["adb"; "connect"; "192.168.1.20:5555"];
        Run ["adb"; "devices"]]).
Proof. reflexivity. Qed.

(** A package that is installed and whose every operation succeeds. *)
Example uninstall_package_done :
  main.uninstall_package "/home/user/sapps" "com.samsung.android.app.notes"
    (start two_documents
       [inr ("package:com.samsung.android.app.notes" ++ py.nl);
        inr "Success";
        inr ("package:/system/app/Notes/Notes.apk" ++ py.nl);
        inr "1 file pulled";
        inl CalledProcessError;
        inr "Success"] [])
  = (inr tt,
     finished two_documents
       [Run (listing_installed "com.samsung.android.app.notes");
        Print "Uninstalling: com.samsung.android.app.notes..." " ";
        Run ["adb"; "shell"; "pm"; "clear"; "com.samsung.android.app.notes"];
        Run ["adb"; "shell"; "pm"; "path"; "com.samsung.android.app.notes"];
        Run ["adb"; "pull"; "/system/app/Notes/Notes.apk";
             "/home/user/sapps/com.samsung.android.app.notes.apk"];
        Run ["adb"; "uninstall"; "com.samsung.android.app.notes"];
        Run ["adb"; "uninstall"; "--user"; "0";
             "com.samsung.android.app.notes"];
        Print "Done" py.nl]).
Proof. reflexivity. Qed.

(** The button is found at the first attempt and tapped in its middle. *)
Example install_from_playstore_taps :
  adb.install_from_playstore "org.mozilla.firefox"
    (start two_documents
       (inr "Starting: Intent" :: retrieval "<two/>" ++ [inr ""])%list [])
  = (inr tt,
     finished two_documents
       ([Run ["adb"; "shell"; "am"; "start"; "-a";
              "android.intent.action.VIEW"; "-d";
              "market://details?id=org.mozilla.firefox"]]
        ++ attempt_events
        ++ [Run ["adb"; "shell"; "input"; "tap"; "20"; "30"]])).
Proof. reflexivity. Qed.
(** * Properties *)

(** ** Strings *)

Section StringFacts.

Lemma all_chars_impl (p q : ascii -> bool) (s : string) :
  (forall c, p c = true -> q c = true) ->
  all_chars p s = true -> all_chars q s = true.
Proof.
  intros Hpq. induction s as [|c r IH]; simpl; [reflexivity|].
  intros H. apply andb_true_iff in H as [Hc Hr].
  rewrite (Hpq _ Hc), (IH Hr). reflexivity.
Qed.

Lemma all_chars_app (p : ascii -> bool) (s t : string) :
  all_chars p (s ++ t) = all_chars p s && all_chars p t.
Proof.
  induction s as [|c r IH]; simpl; [reflexivity|].
  rewrite IH. apply andb_assoc.
Qed.

Lemma append_empty_r (s : string) : s ++ "" = s.
Proof. induction s as [|c r IH]; simpl; congruence. Qed.

Lemma append_assoc' (s t u : string) : (s ++ t) ++ u = s ++ t ++ u.
Proof. induction s as [|c r IH]; simpl; congruence. Qed.

Lemma lstrip_head (chars : string) (c : ascii) (r : string) :
  py.char_in c chars = false ->
  py.lstrip chars (String c r) = String c r.
Proof. intros H. simpl. rewrite H. reflexivity. Qed.

Lemma rstrip_app (chars s t : string) :
  all_chars (fun c => negb (py.char_in c chars)) s = true ->
  py.rstrip chars (s ++ t) = s ++ py.rstrip chars t.
Proof.
  induction s as [|c r IH]; simpl; [reflexivity|].
  intros H. apply andb_true_iff in H as [Hc Hr].
  rewrite (IH Hr). apply negb_true_iff in Hc. rewrite Hc.
  destruct (r ++ py.rstrip chars t); reflexivity.
Qed.

Lemma rstrip_id (chars s : string) :
  all_chars (fun c => negb (py.char_in c chars)) s = true ->
  py.rstrip chars s = s.
Proof.
  intros H. rewrite <- (append_empty_r s) at 1.
  rewrite (rstrip_app _ _ _ H). apply append_empty_r.
Qed.

Lemma strip_id (chars s : string) :
  all_chars (fun c => negb (py.char_in c chars)) s = true ->
  py.strip chars s = s.
Proof.
  intros H. unfold py.strip.
  destruct s as [|c r]; [reflexivity|].
  pose proof H as H'. simpl in H'. apply andb_true_iff in H' as [Hc _].
  apply negb_true_iff in Hc.
  rewrite (lstrip_head _ _ _ Hc). apply rstrip_id, H.
Qed.

(** [replace("][", ",")] passes over text without a closing bracket. *)
Lemma replace_bracket_free (s t : string) :
  all_chars (fun c => negb (Ascii.eqb c "]")) s = true ->
  py.replace_from "][" "," 0 (s ++ t) = s ++ py.replace_from "][" "," 0 t.
Proof.
  induction s as [|c r IH]; [reflexivity|].
  intros H. simpl in H. apply andb_true_iff in H as [Hc Hr].
  apply negb_true_iff in Hc. rewrite Ascii.eqb_sym in Hc.
  change (String c r ++ t) with (String c (r ++ t)).
  cbn [py.replace_from py.startswith]. rewrite Hc. cbn [andb].
  rewrite (IH Hr). reflexivity.
Qed.

(** [split(",")] cuts after text without a comma. *)
Lemma split_comma_free (s t : string) :
  all_chars (fun c => negb (Ascii.eqb c ",")) s = true ->
  py.split_from "," 0 (s ++ String "," t) = s :: py.split_from "," 0 t.
Proof.
  induction s as [|c r IH]; [reflexivity|].
  intros H. simpl in H. apply andb_true_iff in H as [Hc Hr].
  apply negb_true_iff in Hc. rewrite Ascii.eqb_sym in Hc.
  change (String c r ++ String "," t) with (String c (r ++ String "," t)).
  cbn [py.split_from py.startswith]. rewrite Hc. cbn [andb].
  rewrite (IH Hr). reflexivity.
Qed.

Lemma split_comma_free_last (s : string) :
  all_chars (fun c => negb (Ascii.eqb c ",")) s = true ->
  py.split_from "," 0 s = [s].
Proof.
  induction s as [|c r IH]; [reflexivity|].
  intros H. simpl in H. apply andb_true_iff in H as [Hc Hr].
  apply negb_true_iff in Hc. rewrite Ascii.eqb_sym in Hc.
  cbn [py.split_from py.startswith]. rewrite Hc. cbn [andb].
  rewrite (IH Hr). reflexivity.
Qed.

(** What a character of a rendered [int] is not. *)
Lemma num_char_facts (c : ascii) :
  num_char c = true ->
  py.char_in c "[]" = false /\ Ascii.eqb c "]" = false /\
  Ascii.eqb c "," = false /\ py.char_in c py.whitespace = false.
Proof.
  destruct c as [[] [] [] [] [] [] [] []]; vm_compute;
    intros H; try discriminate H; repeat split.
Qed.

Lemma num_char_no_int_whitespace (c : ascii) :
  num_char c = true -> py.char_in c py.int_whitespace = false.
Proof.
  destruct c as [[] [] [] [] [] [] [] []]; vm_compute;
    intros H; try discriminate H; reflexivity.
Qed.

End StringFacts.

(** ** [int(str(n)) == n] *)

Section IntOfStr.

Lemma int_digits_uint (d : uint) (acc : Z) :
  py.int_digits acc true (NilEmpty.string_of_uint d) = Some (horner acc d).
Proof.
  revert acc. induction d; intros acc; cbn [NilEmpty.string_of_uint horner];
    [reflexivity | ..];
    (cbn [py.int_digits]; unfold py.digit_value; cbn - [py.int_digits Z.mul Z.add horner];
     apply IHd).
Qed.

Lemma int_digits_uint_first (d : uint) (acc : Z) :
  d <> Nil ->
  py.int_digits acc false (NilEmpty.string_of_uint d) = Some (horner acc d).
Proof.
  destruct d; intros Hd; [contradiction | ..];
    cbn [NilEmpty.string_of_uint horner py.int_digits];
    unfold py.digit_value; cbn - [py.int_digits Z.mul Z.add horner];
    apply int_digits_uint.
Qed.

Lemma horner_pos (d : uint) (acc : positive) :
  horner (Zpos acc) d = Zpos (Pos.of_uint_acc d acc).
Proof.
  revert acc. induction d; intros acc; cbn [horner Pos.of_uint_acc];
    [reflexivity | ..];
    (etransitivity; [|apply IHd]); f_equal; lia.
Qed.

Lemma horner_0 (d : uint) : horner 0 d = Z.of_N (Pos.of_uint d).
Proof.
  induction d; cbn [horner Pos.of_uint]; [reflexivity | assumption | ..];
    apply (horner_pos d).
Qed.

Lemma uint_chars (d : uint) :
  all_chars num_char (NilEmpty.string_of_uint d) = true.
Proof. induction d; cbn; auto. Qed.

Lemma str_chars (n : Z) : all_chars num_char (py.str n) = true.
Proof.
  unfold py.str.
  destruct (Z.to_int n) as [d|d]; cbn [NilZero.string_of_int];
    [|cbn [all_chars]; apply andb_true_iff; split; [reflexivity|]];
    (destruct d; [reflexivity | apply (uint_chars _) ..]).
Qed.

Lemma num_chars_no_whitespace (s : string) :
  all_chars num_char s = true ->
  all_chars (fun c => negb (py.char_in c py.int_whitespace)) s = true.
Proof.
  apply all_chars_impl. intros c Hc.
  apply negb_true_iff, (num_char_no_int_whitespace c Hc).
Qed.

Lemma int_of_uint_string (d : uint) :
  py.int_digits 0 false (NilZero.string_of_uint d) = Some (Z.of_uint d).
Proof.
  unfold Z.of_uint. rewrite <- horner_0.
  destruct d; [reflexivity | apply int_digits_uint_first; discriminate ..].
Qed.

(** [int] reads back what [str] wrote. *)
Lemma int_str (n : Z) : py.int (py.str n) = inr n.
Proof.
  rewrite <- (DecimalZ.of_to n) at 2.
  pose proof (str_chars n) as Hc. unfold py.str in *.
  unfold py.int.
  rewrite (strip_id _ _ (num_chars_no_whitespace _ Hc)).
  destruct (Z.to_int n) as [d|d]; cbn [NilZero.string_of_int Z.of_int].
  - pose proof (int_of_uint_string d) as Hd.
    destruct d; cbn [NilZero.string_of_uint NilEmpty.string_of_uint] in Hd |- *;
      cbv iota beta; rewrite Hd; apply f_equal; lia.
  - rewrite (int_of_uint_string d). apply f_equal. lia.
Qed.

End IntOfStr.

(** ** The [bounds] attribute *)

Section Bounds.

Lemma lstrip_app_stop (chars s : string) (c : ascii) (t : string) :
  all_chars (fun a => negb (py.char_in a chars)) s = true ->
  py.char_in c chars = false ->
  py.lstrip chars (s ++ String c t) = s ++ String c t.
Proof.
  intros Hs Hc. destruct s as [|a r].
  - apply lstrip_head, Hc.
  - simpl in Hs. apply andb_true_iff in Hs as [Ha _].
    apply negb_true_iff in Ha. apply lstrip_head, Ha.
Qed.

Lemma num_chars_no_bracket (s : string) :
  all_chars num_char s = true ->
  all_chars (fun c => negb (Ascii.eqb c "]")) s = true.
Proof.
  apply all_chars_impl. intros c Hc.
  apply negb_true_iff, (num_char_facts c Hc).
Qed.

Lemma num_chars_no_brackets (s : string) :
  all_chars num_char s = true ->
  all_chars (fun c => negb (py.char_in c "[]")) s = true.
Proof.
  apply all_chars_impl. intros c Hc.
  apply negb_true_iff, (num_char_facts c Hc).
Qed.

Lemma num_chars_no_comma (s : string) :
  all_chars num_char s = true ->
  all_chars (fun c => negb (Ascii.eqb c ",")) s = true.
Proof.
  apply all_chars_impl. intros c Hc.
  apply negb_true_iff, (num_char_facts c Hc).
Qed.

Lemma rstrip_comma (t : string) :
  py.rstrip "[]" (String "," t) = String "," (py.rstrip "[]" t).
Proof. apply (rstrip_app "[]" "," t eq_refl). Qed.

(** The string expression of line 287 on a bounds text whose four
    fields are made of sign and digit characters: the fields come
    back, in order. *)
Lemma bounds_fields (s1 s2 s3 s4 : string) :
  all_chars num_char s1 = true -> all_chars num_char s2 = true ->
  all_chars num_char s3 = true -> all_chars num_char s4 = true ->
  py.split "," (py.strip "[]" (py.replace "][" "," (bounds_text s1 s2 s3 s4)))
  = inr [s1; s2; s3; s4].
Proof.
  intros H1 H2 H3 H4.
  assert (Hrep : py.replace "][" "," (bounds_text s1 s2 s3 s4)
                 = String "[" (s1 ++ String "," (s2 ++ String ","
                     (s3 ++ String "," (s4 ++ "]"))))).
  { unfold py.replace, bounds_text.
    rewrite (replace_bracket_free "[" _ eq_refl).
    rewrite (replace_bracket_free s1 _ (num_chars_no_bracket _ H1)).
    rewrite (replace_bracket_free "," _ eq_refl).
    rewrite (replace_bracket_free s2 _ (num_chars_no_bracket _ H2)).
    change (py.replace_from "][" "," 0 ("][" ++ s3 ++ "," ++ s4 ++ "]"))
      with ("," ++ py.replace_from "][" "," 0 (s3 ++ "," ++ s4 ++ "]")).
    rewrite (replace_bracket_free s3 _ (num_chars_no_bracket _ H3)).
    rewrite (replace_bracket_free "," _ eq_refl).
    rewrite (replace_bracket_free s4 _ (num_chars_no_bracket _ H4)).
    reflexivity. }
  rewrite Hrep. clear Hrep.
  assert (Hstrip : forall body,
             py.strip "[]" (String "[" (s1 ++ String "," body))
             = s1 ++ String "," (py.rstrip "[]" body)).
  { intros body. unfold py.strip.
    change (py.lstrip "[]" (String "[" (s1 ++ String "," body)))
      with (py.lstrip "[]" (s1 ++ String "," body)).
    rewrite (lstrip_app_stop "[]" s1 "," body (num_chars_no_brackets _ H1) eq_refl).
    rewrite (rstrip_app _ _ _ (num_chars_no_brackets _ H1)).
    apply f_equal, rstrip_comma. }
  rewrite Hstrip. clear Hstrip.
  rewrite (rstrip_app _ _ _ (num_chars_no_brackets _ H2)).
  rewrite rstrip_comma.
  rewrite (rstrip_app _ _ _ (num_chars_no_brackets _ H3)).
  rewrite rstrip_comma.
  rewrite (rstrip_app _ _ _ (num_chars_no_brackets _ H4)).
  change (py.rstrip "[]" "]") with "". rewrite (append_empty_r s4).
  unfold py.split.
  rewrite (split_comma_free _ _ (num_chars_no_comma _ H1)).
  rewrite (split_comma_free _ _ (num_chars_no_comma _ H2)).
  rewrite (split_comma_free _ _ (num_chars_no_comma _ H3)).
  rewrite (split_comma_free_last _ (num_chars_no_comma _ H4)).
  reflexivity.
Qed.

(** The middle of the rectangle a node's [bounds] attribute writes. *)
Lemma bounds_center_of_string (node : etree.Element) (x1 y1 x2 y2 : Z) :
  etree.get "bounds" (etree.attrib node) = Some (bounds_string x1 y1 x2 y2) ->
  adb.bounds_center node = inr ((x1 + x2) / 2, (y1 + y2) / 2).
Proof.
  intros Hb. unfold adb.bounds_center. rewrite Hb.
  change (bounds_string x1 y1 x2 y2)
    with (bounds_text (py.str x1) (py.str y1) (py.str x2) (py.str y2)).
  rewrite (bounds_fields _ _ _ _ (str_chars x1) (str_chars y1)
             (str_chars x2) (str_chars y2)).
  cbn [py.map_result]. rewrite !int_str. reflexivity.
Qed.

End Bounds.

(** ** The locator *)

Section Locator.
Context {h : Host}.

Lemma is_install_label (node : etree.Element) :
  adb.is_install node = true <-> label node = Some "Install".
Proof.
  unfold adb.is_install, label.
  destruct (etree.get "text" (etree.attrib node)) as [text|].
  - rewrite String.eqb_eq. split; congruence.
  - split; discriminate.
Qed.

Lemma next_install_none (nodes : list etree.Element) :
  Forall (fun node => label node <> Some "Install") nodes ->
  adb.next_install nodes = None.
Proof.
  unfold adb.next_install.
  induction 1 as [|node nodes Hn _ IH]; [reflexivity|].
  cbn [find]. destruct (adb.is_install node) eqn:E; [|exact IH].
  apply is_install_label in E. contradiction.
Qed.

(** The first node labelled [Install] is the one [next] yields,
    whatever follows it. *)
Lemma next_install_first (pre post : list etree.Element)
  (node : etree.Element) :
  Forall (fun n => label n <> Some "Install") pre ->
  label node = Some "Install" ->
  adb.next_install (pre ++ node :: post) = Some node.
Proof.
  intros Hpre Hnode. unfold adb.next_install.
  induction Hpre as [|n pre Hn _ IH]; simpl.
  - apply is_install_label in Hnode. rewrite Hnode. reflexivity.
  - destruct (adb.is_install n) eqn:E; [|exact IH].
    apply is_install_label in E. contradiction.
Qed.

(** One attempt on a retrieved document. *)
Lemma loop_attempt (n : nat) (w w' : World h) (tr : list Event)
  (root : etree.Element) :
  retrieves w root w' ->
  adb.find_install_loop (S n) (mkState w tr)
  = match adb.next_install (ui_nodes root) with
    | Some button => (inr (Some button), mkState w' (tr ++ attempt_events))
    | None => adb.find_install_loop n (mkState w' (tr ++ attempt_events))
    end.
Proof.
  intros (out1 & w1 & stdout & Hdump & Hcat & Hparse).
  cbn [adb.find_install_loop].
  unfold bind, sleep, adb.run_adb_command, call. cbn [world trace].
  fold dump_command cat_command.
  rewrite Hdump. cbn [world trace]. rewrite Hcat, Hparse.
  fold (ui_nodes root).
  replace (((tr ++ [Sleep 1]) ++ [Run dump_command]) ++ [Run cat_command])%list
    with (tr ++ attempt_events)%list
    by (unfold attempt_events; rewrite <- !app_assoc; reflexivity).
  destruct (adb.next_install (ui_nodes root)); reflexivity.
Qed.

(** Documents without the label use up one attempt each. *)
Lemma loop_skips (roots : list etree.Element) (w w' : World h) :
  serves w roots w' ->
  Forall no_install roots ->
  forall (n : nat) (tr : list Event),
    adb.find_install_loop (List.length roots + n) (mkState w tr)
    = adb.find_install_loop n
        (mkState w' (tr ++ attempts_events (List.length roots))).
Proof.
  induction 1 as [w | w w1 w' root roots Hr _ IH]; intros Hall n tr.
  - cbn [List.length attempts_events Nat.add]. rewrite app_nil_r. reflexivity.
  - inversion Hall as [|? ? Hroot Hroots]; subst.
    cbn [List.length Nat.add].
    rewrite (loop_attempt _ _ _ _ _ Hr).
    rewrite (next_install_none _ Hroot).
    rewrite (IH Hroots). cbn [attempts_events].
    rewrite app_assoc. reflexivity.
Qed.

(** The locator once the loop has selected a button. *)
Lemma find_install_button_selected
  (roots : list etree.Element) (w w1 w' : World h) (tr : list Event)
  (root button : etree.Element) :
  serves w roots w1 ->
  Forall no_install roots ->
  (List.length roots < adb.max_attempts)%nat ->
  retrieves w1 root w' ->
  adb.next_install (ui_nodes root) = Some button ->
  adb.find_install_button (mkState w tr)
  = (match adb.bounds_center button with
     | inl e => inl e
     | inr xy => inr (Some xy)
     end,
     mkState w' (tr ++ attempts_events (List.length roots) ++ attempt_events)).
Proof.
  intros Hserves Hall Hlen Hroot Hnext.
  unfold adb.find_install_button, bind.
  replace adb.max_attempts
    with (List.length roots + S (adb.max_attempts - S (List.length roots)))%nat
    by lia.
  rewrite (loop_skips _ _ _ Hserves Hall).
  rewrite (loop_attempt _ _ _ _ _ Hroot), Hnext.
  unfold lift, ret. rewrite <- app_assoc.
  destruct (adb.bounds_center button); reflexivity.
Qed.

End Locator.

(** ** Statements and loops *)

Section Statements.
Context {h : Host}.

Lemma startswith_spec (p s : string) :
  py.startswith p s = true <-> exists post, s = p ++ post.
Proof.
  revert s. induction p as [|a p IH]; intros s; cbn [py.startswith].
  - split; [intros _; exists s; reflexivity | reflexivity].
  - destruct s as [|b s].
    + split; [discriminate | intros [post H]; discriminate H].
    + rewrite andb_true_iff, Ascii.eqb_eq, IH. split.
      * intros [-> [post ->]]. exists post. reflexivity.
      * intros [post H]. injection H as -> ->. split; [reflexivity|].
        exists post. reflexivity.
Qed.

(** [in] on strings is substring containment. *)
Lemma str_in_spec (needle hay : string) :
  py.str_in needle hay = true <->
  exists pre post, hay = pre ++ needle ++ post.
Proof.
  induction hay as [|c r IH]; cbn [py.str_in]; rewrite orb_true_iff.
  - split.
    + intros [H|H]; [|discriminate H].
      apply startswith_spec in H as [post ->]. exists "", post. reflexivity.
    + intros (pre & post & H). left. apply startswith_spec.
      destruct pre; [exists post; exact H | discriminate H].
  - rewrite IH, startswith_spec. split.
    + intros [[post H] | (pre & post & H)].
      * exists "", post. exact H.
      * exists (String c pre), post. rewrite H. reflexivity.
    + intros (pre & post & H). destruct pre as [|a pre].
      * left. exists post. exact H.
      * right. injection H as _ H. exists pre, post. exact H.
Qed.

(** What [run_adb_command] does in a state. *)
Lemma run_adb_command_eq (command : list string) (s : State h) :
  adb.run_adb_command command s
  = (fst (subprocess_run h command (world s)),
     mkState (snd (subprocess_run h command (world s)))
             (trace s ++ [Run command])).
Proof.
  unfold adb.run_adb_command, call.
  destruct (subprocess_run h command (world s)); reflexivity.
Qed.

(** A [try] whose handler and [else] only print does not raise. *)
Lemma try_print_total {A : Type} (body : M h A) (t1 e1 t2 e2 : string)
  (s : State h) :
  exists s',
    try_except_else body (print t1 e1) (print t2 e2) s = (inr tt, s').
Proof.
  unfold try_except_else, print.
  destruct (body s) as [[e|a] s1]; eexists; reflexivity.
Qed.

(** A loop whose body never raises runs to its end. *)
Lemma for_each_total {A : Type} (body : A -> M h unit) (l : list A) :
  (forall x s, exists s', body x s = (inr tt, s')) ->
  forall s, exists s', for_each l body s = (inr tt, s').
Proof.
  intros Hbody. induction l as [|x l IH]; intros s; cbn [for_each].
  - eexists; reflexivity.
  - unfold bind. destruct (Hbody x s) as [s1 ->]. apply IH.
Qed.

(** The checks run one command and nothing else. *)
Lemma is_installed_trace (package : string) (s s' : State h)
  (r : result bool) :
  adb.is_installed package s = (r, s') ->
  trace s' = (trace s ++ [Run (listing_installed package)])%list.
Proof.
  unfold adb.is_installed, bind. rewrite run_adb_command_eq.
  destruct (fst (subprocess_run h _ (world s))); unfold ret; intros H;
    apply (f_equal snd) in H; cbn [snd] in H; rewrite <- H; reflexivity.
Qed.

Lemma is_connected_trace (s s' : State h) (r : result bool) :
  adb.is_connected s = (r, s') ->
  trace s' = (trace s ++ [Run ["adb"; "devices"]])%list.
Proof.
  unfold adb.is_connected, bind. rewrite run_adb_command_eq.
  destruct (fst (subprocess_run h _ (world s))); unfold ret; intros H;
    apply (f_equal snd) in H; cbn [snd] in H; rewrite <- H; reflexivity.
Qed.

Lemma is_enabled_total (package : string) (s : State h) :
  (forall w, exists out w',
      subprocess_run h listing_enabled w = (inr out, w')) ->
  exists b s', adb.is_enabled package s = (inr b, s').
Proof.
  intros Hcheck. unfold adb.is_enabled, bind. rewrite run_adb_command_eq.
  fold listing_enabled.
  destruct (Hcheck (world s)) as (out & w' & ->). cbn [fst snd].
  eexists _, _. reflexivity.
Qed.

Lemma is_installed_total (package : string) (s : State h) :
  (forall p w, exists out w',
      subprocess_run h (listing_installed p) w = (inr out, w')) ->
  exists b s', adb.is_installed package s = (inr b, s').
Proof.
  intros Hcheck. unfold adb.is_installed, bind. rewrite run_adb_command_eq.
  fold (listing_installed package).
  destruct (Hcheck package (world s)) as (out & w' & ->). cbn [fst snd].
  eexists _, _. reflexivity.
Qed.

Lemma freeze_package_total (package : string) (s : State h) :
  (forall w, exists out w',
      subprocess_run h listing_enabled w = (inr out, w')) ->
  exists s', main.freeze_package package s = (inr tt, s').
Proof.
  intros Hcheck. unfold main.freeze_package, bind at 1.
  destruct (is_enabled_total package s Hcheck) as (b & s1 & ->).
  destruct b; cbn [negb]; [|eexists; reflexivity].
  unfold bind, print at 1. apply try_print_total.
Qed.

Lemma uninstall_package_total (target package : string) (s : State h) :
  (forall p w, exists out w',
      subprocess_run h (listing_installed p) w = (inr out, w')) ->
  exists s', main.uninstall_package target package s = (inr tt, s').
Proof.
  intros Hcheck. unfold main.uninstall_package, bind at 1.
  destruct (is_installed_total package s Hcheck) as (b & s1 & ->).
  destruct b; cbn [negb]; [|eexists; reflexivity].
  unfold bind, print at 1. apply try_print_total.
Qed.

Lemma install_package_total (package : string) (s : State h) :
  (forall p w, exists out w',
      subprocess_run h (listing_installed p) w = (inr out, w')) ->
  exists s', main.install_package package s = (inr tt, s').
Proof.
  intros Hcheck. unfold main.install_package, bind at 1.
  destruct (is_installed_total package s Hcheck) as (b & s1 & ->).
  destruct b; [eexists; reflexivity|].
  unfold bind, print at 1. apply try_print_total.
Qed.

(** A [try] whose body raises runs the handler. *)
Lemma try_marker {A : Type} (announce : M h unit) (body : M h A)
  (t2 e2 : string) (s s2 : State h) (e : exn) :
  (announce ;; body) s = (inl e, s2) ->
  (forall s0, exists s1, announce s0 = (inr tt, s1)) ->
  (announce ;;
   try_except_else body (print "Failed!!!" py.nl) (print t2 e2)) s
  = (inr tt, mkState (world s2) (trace s2 ++ [failed_marker])).
Proof.
  unfold bind, try_except_else. intros Hraise Hannounce.
  destruct (Hannounce s) as [s1 Hs1]. rewrite Hs1 in Hraise |- *.
  rewrite Hraise. reflexivity.
Qed.

Lemma print_total (text end_ : string) (s0 : State h) :
  exists s1, print text end_ s0 = (inr tt, s1).
Proof. eexists; reflexivity. Qed.

(** A loop that got through a first part of its list goes on with
    the rest. *)
Lemma for_each_reach {A : Type} (body : A -> M h unit)
  (pre post : list A) (x : A) (s0 s : State h) :
  for_each pre body s0 = (inr tt, s) ->
  for_each (pre ++ x :: post)%list body s0
  = match body x s with
    | (inl e, s') => (inl e, s')
    | (inr _, s') => for_each post body s'
    end.
Proof.
  revert s0. induction pre as [|y pre IH]; intros s0.
  - cbn [for_each Datatypes.app]. unfold ret. intros H. injection H as ->.
    unfold bind. destruct (body x s) as [[e|[]] s']; reflexivity.
  - change (for_each ((y :: pre) ++ x :: post)%list body s0)
      with ((body y ;; for_each (pre ++ x :: post)%list body) s0).
    cbn [for_each]. unfold bind.
    destruct (body y s0) as [[e|[]] s1]; [discriminate|].
    apply IH.
Qed.

(** The loop bodies when the operation raises inside the [try]. *)
Lemma freeze_package_marker (package : string) (s s1 s2 : State h) (e : exn) :
  adb.is_enabled package s = (inr true, s1) ->
  (print ("Disabling: " ++ package ++ "...") " " ;;
   adb.clear_data package ;; adb.disable package) s1 = (inl e, s2) ->
  main.freeze_package package s
  = (inr tt, mkState (world s2) (trace s2 ++ [failed_marker])).
Proof.
  intros Hcheck Hraise.
  unfold main.freeze_package. unfold bind at 1. rewrite Hcheck.
  cbn [negb]. apply (try_marker _ _ _ _ _ _ _ Hraise), print_total.
Qed.

Lemma uninstall_package_marker (target package : string)
  (s s1 s2 : State h) (e : exn) :
  adb.is_installed package s = (inr true, s1) ->
  (print ("Uninstalling: " ++ package ++ "...") " " ;;
   adb.clear_data package ;; adb.extract package target ;;
   adb.uninstall package) s1 = (inl e, s2) ->
  main.uninstall_package target package s
  = (inr tt, mkState (world s2) (trace s2 ++ [failed_marker])).
Proof.
  intros Hcheck Hraise.
  unfold main.uninstall_package. unfold bind at 1. rewrite Hcheck.
  cbn [negb]. apply (try_marker _ _ _ _ _ _ _ Hraise), print_total.
Qed.

Lemma install_package_marker (package : string) (s s1 s2 : State h) (e : exn) :
  adb.is_installed package s = (inr false, s1) ->
  (print ("Installing: " ++ package ++ "...") " " ;;
   adb.install_from_playstore package) s1 = (inl e, s2) ->
  main.install_package package s
  = (inr tt, mkState (world s2) (trace s2 ++ [failed_marker])).
Proof.
  intros Hcheck Hraise.
  unfold main.install_package. unfold bind at 1. rewrite Hcheck.
  apply (try_marker _ _ _ _ _ _ _ Hraise), print_total.
Qed.

(** The part of [main.uninstall] before its loop. *)
Lemma main_uninstall_reach (pre post : list string) (package : string)
  (s0 s : State h) :
  main.uninstall pre s0 = (inr tt, s) ->
  main.uninstall (pre ++ package :: post)%list s0
  = match main.uninstall_package (pathlib.div (path_home h) "sapps")
            package s with
    | (inl e, s') => (inl e, s')
    | (inr _, s') =>
        for_each post
          (main.uninstall_package (pathlib.div (path_home h) "sapps")) s'
    end.
Proof.
  unfold main.uninstall, bind.
  destruct (mkdir (pathlib.div (path_home h) "sapps") s0) as [[e|[]] sm];
    [discriminate|].
  apply for_each_reach.
Qed.

End Statements.

(** * The claims *)

Section LocatorClaims.
Context {h : Host}.

(** C1. Once a retrieved document has a node the locator selects,
    [find_install_button] returns the middle of the rectangle that
    node's [bounds] attribute writes: for the text [[x1,y1][x2,y2]] of
    any four integers the point [((x1+x2)//2, (y1+y2)//2)], the
    division rounding down; for the text [[10,20][30,40]] the point
    [(20, 30)]. *)
Theorem locator_returns_floor_midpoint
  (roots : list etree.Element) (w w1 w' : World h) (tr : list Event)
  (root button : etree.Element) :
  serves w roots w1 ->
  Forall no_install roots ->
  (List.length roots < adb.max_attempts)%nat ->
  retrieves w1 root w' ->
  adb.next_install (ui_nodes root) = Some button ->
  (forall x1 y1 x2 y2 : Z,
      etree.get "bounds" (etree.attrib button)
      = Some (bounds_string x1 y1 x2 y2) ->
      adb.find_install_button (mkState w tr)
      = (inr (Some ((x1 + x2) / 2, (y1 + y2) / 2)),
         mkState w'
           (tr ++ attempts_events (List.length roots) ++ attempt_events))) /\
  (etree.get "bounds" (etree.attrib button) = Some "[10,20][30,40]" ->
   adb.find_install_button (mkState w tr)
   = (inr (Some (20, 30)),
      mkState w'
        (tr ++ attempts_events (List.length roots) ++ attempt_events))).
Proof.
  intros Hserves Hall Hlen Hroot Hnext.
  assert (Hgen : forall x1 y1 x2 y2 : Z,
             etree.get "bounds" (etree.attrib button)
             = Some (bounds_string x1 y1 x2 y2) ->
             adb.find_install_button (mkState w tr)
             = (inr (Some ((x1 + x2) / 2, (y1 + y2) / 2)),
                mkState w'
                  (tr ++ attempts_events (List.length roots)
                      ++ attempt_events))).
  { intros x1 y1 x2 y2 Hbounds.
    rewrite (find_install_button_selected _ _ _ _ _ _ _
               Hserves Hall Hlen Hroot Hnext).
    rewrite (bounds_center_of_string _ _ _ _ _ Hbounds). reflexivity. }
  split; [exact Hgen|].
  intros Hbounds. apply (Hgen 10 20 30 40 Hbounds).
Qed.

(** C2. When each of the [max_attempts] retrievals yields a document in
    which no node is labelled [Install], [find_install_button] returns
    [None]; it does not raise, and it has made exactly [max_attempts]
    attempts. *)
Theorem find_install_button_absent
  (roots : list etree.Element) (w w' : World h) (tr : list Event) :
  serves w roots w' ->
  List.length roots = adb.max_attempts ->
  Forall no_install roots ->
  adb.find_install_button (mkState w tr)
  = (inr None, mkState w' (tr ++ attempts_events adb.max_attempts)).
Proof.
  intros Hserves Hlen Hall.
  unfold adb.find_install_button, bind.
  rewrite <- Hlen, <- (Nat.add_0_r (List.length roots)) at 1.
  rewrite (loop_skips _ _ _ Hserves Hall).
  rewrite Hlen. reflexivity.
Qed.

(** C5. When earlier retrievals found no [Install] label and the
    current document has a node labelled [Install] with no such node
    before it in document order, [find_install_button] returns the
    middle of that node's rectangle, whatever nodes, labelled [Install]
    or not, come after it. *)
Theorem first_install_in_document_order
  (roots : list etree.Element) (w w1 w' : World h) (tr : list Event)
  (root node : etree.Element) (pre post : list etree.Element)
  (x1 y1 x2 y2 : Z) :
  serves w roots w1 ->
  Forall no_install roots ->
  (List.length roots < adb.max_attempts)%nat ->
  retrieves w1 root w' ->
  ui_nodes root = (pre ++ node :: post)%list ->
  Forall (fun n => label n <> Some "Install") pre ->
  label node = Some "Install" ->
  etree.get "bounds" (etree.attrib node) = Some (bounds_string x1 y1 x2 y2) ->
  adb.find_install_button (mkState w tr)
  = (inr (Some ((x1 + x2) / 2, (y1 + y2) / 2)),
     mkState w' (tr ++ attempts_events (List.length roots) ++ attempt_events)).
Proof.
  intros Hserves Hall Hlen Hroot Hnodes Hpre Hnode Hbounds.
  unfold adb.find_install_button, bind.
  replace adb.max_attempts
    with (List.length roots + S (adb.max_attempts - S (List.length roots)))%nat
    by lia.
  rewrite (loop_skips _ _ _ Hserves Hall).
  rewrite (loop_attempt _ _ _ _ _ Hroot).
  rewrite Hnodes, (next_install_first _ _ _ Hpre Hnode).
  unfold lift. rewrite (bounds_center_of_string _ _ _ _ _ Hbounds).
  rewrite <- app_assoc. reflexivity.
Qed.

(** C6. The node [next] selects carries exactly the label [Install]; a
    node with any other label, such as [install], is never selected,
    and a list of nodes all labelled [install] yields no button. *)
Theorem label_match_is_exact :
  (forall (nodes : list etree.Element) (node : etree.Element),
      adb.next_install nodes = Some node -> label node = Some "Install") /\
  (forall (nodes : list etree.Element) (node : etree.Element) (text : string),
      label node = Some text -> text <> "Install" ->
      adb.next_install nodes <> Some node) /\
  (forall (nodes : list etree.Element),
      Forall (fun n => label n = Some "install") nodes ->
      adb.next_install nodes = None).
Proof.
  assert (Hsel : forall nodes node,
             adb.next_install nodes = Some node -> label node = Some "Install").
  { intros nodes node Hfind. apply find_some in Hfind as [_ Hnode].
    apply is_install_label, Hnode. }
  split; [exact Hsel|]. split.
  - intros nodes node text Hlabel Hneq Hfind.
    apply Hsel in Hfind. congruence.
  - intros nodes Hall. apply next_install_none.
    eapply Forall_impl; [|exact Hall].
    intros n Hn. cbv beta in Hn |- *. rewrite Hn. discriminate.
Qed.


End LocatorClaims.

Section ScriptClaims.
Context {h : Host}.

(** C3. [uninstall] runs the all-users command, disregards how it
    ended, then runs the user-0 command in either case; it raises
    exactly when the user-0 command raises, with that exception. *)
Theorem uninstall_all_users_then_user_0
  (package : string) (w : World h) (tr : list Event) :
  let all_users := ["adb"; "uninstall"; package] in
  let user_0 := ["adb"; "uninstall"; "--user"; "0"; package] in
  let '(r1, w1) := subprocess_run h all_users w in
  let '(r2, w2) := subprocess_run h user_0 w1 in
  adb.uninstall package (mkState w tr)
  = (match r2 with inl e => inl e | inr _ => inr tt end,
     mkState w2 (tr ++ [Run all_users; Run user_0])).
Proof.
  intros all_users user_0.
  destruct (subprocess_run h all_users w) as [r1 w1] eqn:H1.
  destruct (subprocess_run h user_0 w1) as [r2 w2] eqn:H2.
  unfold adb.uninstall, try_finally, try_except, bind, adb.run_adb_command,
    call, ret.
  cbn [world trace]. fold all_users user_0. rewrite H1.
  destruct r1 as [e1|out1]; cbn [world trace]; rewrite H2;
    destruct r2 as [e2|out2]; rewrite <- app_assoc; reflexivity.
Qed.

(** C4. When the uninstall batch has got through the packages before
    one and the installed-check answers [False] for it, the batch goes
    on with the packages after it from the state the check left, whose
    only new event is the check's command: for that package nothing is
    cleared, extracted, uninstalled or printed. *)
Theorem uninstall_batch_skips_absent_package
  (pre post : list string) (package : string) (s0 s s' : State h) :
  main.uninstall pre s0 = (inr tt, s) ->
  adb.is_installed package s = (inr false, s') ->
  main.uninstall (pre ++ package :: post)%list s0
  = for_each post (main.uninstall_package (backup_directory h)) s' /\
  trace s' = (trace s ++ [Run (listing_installed package)])%list.
Proof.
  intros Hpre Hcheck. split.
  - rewrite (main_uninstall_reach _ _ _ _ _ Hpre).
    unfold main.uninstall_package at 1. unfold bind at 1. rewrite Hcheck.
    reflexivity.
  - apply (is_installed_trace _ _ _ _ Hcheck).
Qed.

(** C7, as amended.  In each of the three batches, once the batch has
    got through the packages before one: when that package's operation
    raises inside the [try], the failure marker is printed and the
    batch goes on with the packages after it; when the enabled-check or
    installed-check of that package raises, the batch raises the same
    exception in the state the check left, with no marker and without
    looking at the packages after it.  So, provided the checks do not
    raise, each batch runs to its end whatever the operations do. *)
Theorem operation_failures_are_swallowed
  (pre post : list string) (package : string) (s0 s : State h) :
  (main.freeze pre s0 = (inr tt, s) ->
   (forall (s1 s2 : State h) (e : exn),
       adb.is_enabled package s = (inr true, s1) ->
       (print ("Disabling: " ++ package ++ "...") " " ;;
        adb.clear_data package ;; adb.disable package) s1 = (inl e, s2) ->
       main.freeze (pre ++ package :: post)%list s0
       = main.freeze post
           (mkState (world s2) (trace s2 ++ [failed_marker]))) /\
   (forall (s' : State h) (e : exn),
       adb.is_enabled package s = (inl e, s') ->
       main.freeze (pre ++ package :: post)%list s0 = (inl e, s'))) /\
  (main.uninstall pre s0 = (inr tt, s) ->
   (forall (s1 s2 : State h) (e : exn),
       adb.is_installed package s = (inr true, s1) ->
       (print ("Uninstalling: " ++ package ++ "...") " " ;;
        adb.clear_data package ;;
        adb.extract package (backup_directory h) ;;
        adb.uninstall package) s1 = (inl e, s2) ->
       main.uninstall (pre ++ package :: post)%list s0
       = for_each post (main.uninstall_package (backup_directory h))
           (mkState (world s2) (trace s2 ++ [failed_marker]))) /\
   (forall (s' : State h) (e : exn),
       adb.is_installed package s = (inl e, s') ->
       main.uninstall (pre ++ package :: post)%list s0 = (inl e, s'))) /\
  (main.install_from_playstore pre s0 = (inr tt, s) ->
   (forall (s1 s2 : State h) (e : exn),
       adb.is_installed package s = (inr false, s1) ->
       (print ("Installing: " ++ package ++ "...") " " ;;
        adb.install_from_playstore package) s1 = (inl e, s2) ->
       main.install_from_playstore (pre ++ package :: post)%list s0
       = main.install_from_playstore post
           (mkState (world s2) (trace s2 ++ [failed_marker]))) /\
   (forall (s' : State h) (e : exn),
       adb.is_installed package s = (inl e, s') ->
       main.install_from_playstore (pre ++ package :: post)%list s0
       = (inl e, s'))) /\
  ((forall w, exists out w',
       subprocess_run h listing_enabled w = (inr out, w')) ->
   forall (to_freezze : list string) (s3 : State h),
   exists s', main.freeze to_freezze s3 = (inr tt, s')) /\
  ((forall p w, exists out w',
       subprocess_run h (listing_installed p) w = (inr out, w')) ->
   forall (to_uninstall to_install_from_playstore : list string)
          (s3 : State h),
     (forall s4 : State h,
         mkdir (backup_directory h) s3 = (inr tt, s4) ->
         exists s', main.uninstall to_uninstall s3 = (inr tt, s')) /\
     (exists s',
         main.install_from_playstore to_install_from_playstore s3
         = (inr tt, s'))).
Proof.
  split; [|split; [|split; [|split]]].
  - intros Hpre. unfold main.freeze in *. split.
    + intros s1 s2 e Hcheck Hraise.
      rewrite (for_each_reach _ _ _ _ _ _ Hpre).
      rewrite (freeze_package_marker _ _ _ _ _ Hcheck Hraise). reflexivity.
    + intros s' e Hcheck.
      rewrite (for_each_reach _ _ _ _ _ _ Hpre).
      unfold main.freeze_package, bind. rewrite Hcheck. reflexivity.
  - intros Hpre. unfold backup_directory. split.
    + intros s1 s2 e Hcheck Hraise.
      rewrite (main_uninstall_reach _ _ _ _ _ Hpre).
      rewrite (uninstall_package_marker _ _ _ _ _ _ Hcheck Hraise).
      reflexivity.
    + intros s' e Hcheck.
      rewrite (main_uninstall_reach _ _ _ _ _ Hpre).
      unfold main.uninstall_package, bind. rewrite Hcheck. reflexivity.
  - intros Hpre. unfold main.install_from_playstore in *. split.
    + intros s1 s2 e Hcheck Hraise.
      rewrite (for_each_reach _ _ _ _ _ _ Hpre).
      rewrite (install_package_marker _ _ _ _ _ Hcheck Hraise). reflexivity.
    + intros s' e Hcheck.
      rewrite (for_each_reach _ _ _ _ _ _ Hpre).
      unfold main.install_package, bind. rewrite Hcheck. reflexivity.
  - intros Henabled to_freezze s3.
    apply for_each_total. intros x s4. apply freeze_package_total, Henabled.
  - intros Hinstalled to_uninstall to_install_from_playstore s3. split.
    + intros s4 Hmkdir. unfold main.uninstall, bind.
      fold (backup_directory h). rewrite Hmkdir.
      apply for_each_total. intros x s5.
      apply uninstall_package_total, Hinstalled.
    + apply for_each_total. intros x s4.
      apply install_package_total, Hinstalled.
Qed.

(** C8. When [is_connected] answers [True], [connect] ends right
    there: the state is the one the check left, whose only new event is
    [adb devices]; nothing is read from standard input and no connect
    or pair command is run. *)
Theorem connect_is_noop_when_connected (s s' : State h) :
  adb.is_connected s = (inr true, s') ->
  main.connect s = (inr tt, s') /\
  trace s' = (trace s ++ [Run ["adb"; "devices"]])%list.
Proof.
  intros Hcheck. split.
  - unfold main.connect, bind. rewrite Hcheck. reflexivity.
  - apply (is_connected_trace _ _ _ Hcheck).
Qed.

End ScriptClaims.

(** C10. [is_installed] and [is_enabled] answer whether the package
    name occurs anywhere in the text of the listing; so a listing whose
    only line names [com.samsung.android.app.notes.addons] makes both
    answer [True] for [com.samsung.android.app.notes], which it does
    not list. *)
Theorem package_checks_are_substring_tests :
  (forall (h : Host) (package : string) (w : World h) (tr : list Event),
      let '(r, w') := subprocess_run h (listing_installed package) w in
      adb.is_installed package (mkState w tr)
      = (match r with
         | inl e => inl e
         | inr stdout => inr (py.str_in package stdout)
         end,
         mkState w' (tr ++ [Run (listing_installed package)]))) /\
  (forall (h : Host) (package : string) (w : World h) (tr : list Event),
      let '(r, w') := subprocess_run h listing_enabled w in
      adb.is_enabled package (mkState w tr)
      = (match r with
         | inl e => inl e
         | inr stdout => inr (py.str_in package stdout)
         end,
         mkState w' (tr ++ [Run listing_enabled]))) /\
  (forall package stdout : string,
      py.str_in package stdout = true <->
      exists pre post, stdout = pre ++ package ++ post) /\
  (let stdout := "package:com.samsung.android.app.notes.addons" ++ py.nl in
   let package := "com.samsung.android.app.notes" in
   let s := @mkState (scripted two_documents) ([inr stdout], []) [] in
   listed_packages stdout = ["com.samsung.android.app.notes.addons"] /\
   ~ In package (listed_packages stdout) /\
   fst (adb.is_installed package s) = inr true /\
   fst (adb.is_enabled package s) = inr true).
Proof.
  split; [|split; [|split]].
  - intros h package w tr.
    destruct (subprocess_run h (listing_installed package) w) as [r w'] eqn:H.
    unfold adb.is_installed, bind. rewrite run_adb_command_eq.
    fold (listing_installed package). cbn [world trace]. rewrite H.
    destruct r; reflexivity.
  - intros h package w tr.
    destruct (subprocess_run h listing_enabled w) as [r w'] eqn:H.
    unfold adb.is_enabled, bind. rewrite run_adb_command_eq.
    fold listing_enabled. cbn [world trace]. rewrite H.
    destruct r; reflexivity.
  - intros package stdout. apply str_in_spec.
  - cbv zeta. repeat split.
    intros [H|[]]. discriminate H.
Qed.

(** * Instances on concrete devices *)

Lemma screen_without_button_no_install : no_install screen_without_button.
Proof.
  unfold no_install. cbv [ui_nodes etree.findall_descendants].
  repeat constructor; discriminate.
Defined.

Lemma serves_without_button (n : nat) (rest : list (result string)) :
  serves (h := scripted two_documents)
    ((retrievals n "<without/>" ++ rest)%list, [])
    (repeat screen_without_button n) (rest, []).
Proof.
  induction n as [|n IH]; cbn [retrievals repeat app].
  - constructor.
  - econstructor; [|exact IH].
    eexists _, _, _. repeat split; reflexivity.
Defined.

Lemma Forall_without_button (n : nat) :
  Forall no_install (repeat screen_without_button n).
Proof.
  induction n; constructor;
    [apply screen_without_button_no_install | assumption].
Defined.

(** A screen without the button, then the screen with two: the
    locator returns the middle of the button it selects. *)
Lemma locator_returns_floor_midpoint_witness :
  adb.next_install (ui_nodes screen_with_two_buttons) = Some first_button /\
  etree.get "bounds" (etree.attrib first_button) = Some "[10,20][30,40]" /\
  adb.find_install_button
    (start two_documents
       (retrievals 1 "<without/>" ++ retrieval "<two/>")%list [])
  = (inr (Some (20, 30)), finished two_documents (attempts_events 2)).
Proof.
  split; [reflexivity|]. split; [reflexivity|].
  apply (proj2 (locator_returns_floor_midpoint
                  (h := scripted two_documents)
                  (repeat screen_without_button 1)
                  _ (retrieval "<two/>", []) ([], []) []
                  screen_with_two_buttons first_button
                  (serves_without_button 1 (retrieval "<two/>"))
                  (Forall_without_button 1)
                  ltac:(unfold adb.max_attempts; cbn [List.length repeat]; lia)
                  ltac:(eexists _, _, _; repeat split; reflexivity)
                  eq_refl)).
  reflexivity.
Defined.

(** Five screens without the button: [None], after five attempts. *)
Lemma find_install_button_absent_witness :
  serves (h := scripted two_documents)
    ((retrievals 5 "<without/>" ++ [])%list, [])
    (repeat screen_without_button 5) ([], []) /\
  List.length (repeat screen_without_button 5) = adb.max_attempts /\
  Forall no_install (repeat screen_without_button 5) /\
  adb.find_install_button
    (start two_documents (retrievals 5 "<without/>" ++ [])%list [])
  = (inr None, finished two_documents (attempts_events 5)).
Proof.
  split; [apply serves_without_button|].
  split; [reflexivity|].
  split; [apply Forall_without_button|].
  apply (find_install_button_absent
           (h := scripted two_documents)
           (repeat screen_without_button 5) _ _ []
           (serves_without_button 5 []) eq_refl (Forall_without_button 5)).
Defined.

(** Two screens without the button, then the screen with two: the
    middle of the first one in document order, [(20, 30)], not that of
    the second, [(200, 300)]. *)
Lemma first_install_in_document_order_witness :
  ui_nodes screen_with_two_buttons
  = ([lowercase_node] ++ first_button :: [second_button])%list /\
  label first_button = Some "Install" /\
  label second_button = Some "Install" /\
  adb.find_install_button
    (start two_documents
       (retrievals 2 "<without/>" ++ retrieval "<two/>")%list [])
  = (inr (Some (20, 30)),
     finished two_documents (attempts_events 3)).
Proof.
  split; [reflexivity|]. split; [reflexivity|]. split; [reflexivity|].
  apply (first_install_in_document_order
           (h := scripted two_documents)
           (repeat screen_without_button 2)
           _ (retrieval "<two/>", []) ([], []) []
           screen_with_two_buttons first_button
           [lowercase_node] [second_button] 10 20 30 40
           (serves_without_button 2 (retrieval "<two/>"))
           (Forall_without_button 2)).
  - unfold adb.max_attempts. cbn [List.length repeat]. lia.
  - eexists _, _, _. repeat split; reflexivity.
  - reflexivity.
  - repeat constructor. discriminate.
  - reflexivity.
  - reflexivity.
Defined.

(** The node labelled [install] is not the one selected on the screen
    with two buttons. *)
Lemma label_match_is_exact_witness :
  label lowercase_node = Some "install" /\
  adb.next_install (ui_nodes screen_with_two_buttons) <> Some lowercase_node /\
  adb.next_install (ui_nodes screen_with_two_buttons) = Some first_button.
Proof.
  split; [reflexivity|]. split; [|reflexivity].
  apply (proj1 (proj2 label_match_is_exact)
           (ui_nodes screen_with_two_buttons) lowercase_node "install").
  - reflexivity.
  - discriminate.
Defined.


(** Three packages, none of them installed: for the second one the
    batch runs the check and goes on with the third. *)
Lemma uninstall_batch_skips_absent_package_witness :
  main.uninstall ["com.samsung.android.bixby.agent"]
    (start two_documents [inr ""; inr ""; inr ""] [])
  = (inr tt,
     @mkState (scripted two_documents) ([inr ""; inr ""], [])
       [Mkdir "/home/user/sapps";
        Run (listing_installed "com.samsung.android.bixby.agent")]) /\
  adb.is_installed "com.samsung.android.app.notes"
    (@mkState (scripted two_documents) ([inr ""; inr ""], [])
       [Mkdir "/home/user/sapps";
        Run (listing_installed "com.samsung.android.bixby.agent")])
  = (inr false,
     @mkState (scripted two_documents) ([inr ""], [])
       [Mkdir "/home/user/sapps";
        Run (listing_installed "com.samsung.android.bixby.agent");
        Run (listing_installed "com.samsung.android.app.notes")]) /\
  main.uninstall
    ["com.samsung.android.bixby.agent"; "com.samsung.android.app.notes";
     "com.sec.android.app.samsungapps"]
    (start two_documents [inr ""; inr ""; inr ""] [])
  = for_each ["com.sec.android.app.samsungapps"]
      (main.uninstall_package "/home/user/sapps")
      (@mkState (scripted two_documents) ([inr ""], [])
         [Mkdir "/home/user/sapps";
          Run (listing_installed "com.samsung.android.bixby.agent");
          Run (listing_installed "com.samsung.android.app.notes")]).
Proof.
  split; [reflexivity|]. split; [reflexivity|].
  apply (proj1 (uninstall_batch_skips_absent_package
                  (h := scripted two_documents)
                  ["com.samsung.android.bixby.agent"]
                  ["com.sec.android.app.samsungapps"]
                  "com.samsung.android.app.notes"
                  (start two_documents [inr ""; inr ""; inr ""] [])
                  _ _ eq_refl eq_refl)).
Defined.

(** With a device attached, [connect] reads no line and runs nothing
    but [adb devices]. *)
Lemma connect_is_noop_when_connected_witness :
  adb.is_connected
    (start two_documents [inr one_device_attached] ["192.168.1.20:5555"])
  = (inr true,
     @mkState (scripted two_documents) ([], ["192.168.1.20:5555"])
       [Run ["adb"; "devices"]]) /\
  main.connect
    (start two_documents [inr one_device_attached] ["192.168.1.20:5555"])
  = (inr tt,
     @mkState (scripted two_documents) ([], ["192.168.1.20:5555"])
       [Run ["adb"; "devices"]]).
Proof.
  split; [reflexivity|].
  apply (connect_is_noop_when_connected
           (h := scripted two_documents)
           (start two_documents [inr one_device_attached]
              ["192.168.1.20:5555"]) _ eq_refl).
Defined.

(** On a device where every operation fails but the listings
    succeed, the batch of two packages prints the marker for the first
    and goes on with the second; on a scripted device whose second
    check raises, the batch raises after the first package; and on the
    first device every batch of [freeze] runs to its end. *)
Lemma operation_failures_are_swallowed_witness :
  main.freeze
    ["com.sec.android.app.samsungapps"; "com.sec.android.app.samsungapps"]
    (@mkState failing_device tt [])
  = main.freeze ["com.sec.android.app.samsungapps"]
      (@mkState failing_device tt
         [Run listing_enabled;
          Print "Disabling: com.sec.android.app.samsungapps..." " ";
          Run ["adb"; "shell"; "pm"; "clear";
               "com.sec.android.app.samsungapps"];
          failed_marker]) /\
  main.freeze
    ["com.samsung.android.bixby.agent"; "com.samsung.android.app.notes";
     "com.sec.android.app.samsungapps"]
    (start two_documents [inr ""; inl CalledProcessError; inr ""] [])
  = (inl CalledProcessError,
     @mkState (scripted two_documents) ([inr ""], [])
       [Run listing_enabled; Run listing_enabled]) /\
  (forall w : World failing_device, exists out w',
      subprocess_run failing_device listing_enabled w = (inr out, w')) /\
  exists s',
    main.freeze
      ["com.sec.android.app.samsungapps"; "com.sec.android.app.samsungapps"]
      (@mkState failing_device tt [])
    = (inr tt, s').
Proof.
  assert (H1 : forall w : World failing_device, exists out w',
             subprocess_run failing_device listing_enabled w = (inr out, w')).
  { intros []. eexists _, _. reflexivity. }
  split; [|split; [|split; [exact H1|]]].
  - apply (proj1 (proj1 (operation_failures_are_swallowed
                           (h := failing_device)
                           [] ["com.sec.android.app.samsungapps"]
                           "com.sec.android.app.samsungapps"
                           (@mkState failing_device tt [])
                           (@mkState failing_device tt []))
                    eq_refl)
             (@mkState failing_device tt [Run listing_enabled])
             (@mkState failing_device tt
                [Run listing_enabled;
                 Print "Disabling: com.sec.android.app.samsungapps..." " ";
                 Run ["adb"; "shell"; "pm"; "clear";
                      "com.sec.android.app.samsungapps"]])
             CalledProcessError eq_refl eq_refl).
  - apply (proj2 (proj1 (operation_failures_are_swallowed
                           (h := scripted two_documents)
                           ["com.samsung.android.bixby.agent"]
                           ["com.sec.android.app.samsungapps"]
                           "com.samsung.android.app.notes"
                           (start two_documents
                              [inr ""; inl CalledProcessError; inr ""] [])
                           (@mkState (scripted two_documents)
                              ([inl CalledProcessError; inr ""], [])
                              [Run listing_enabled]))
                    eq_refl)
             (@mkState (scripted two_documents) ([inr ""], [])
                [Run listing_enabled; Run listing_enabled])
             CalledProcessError eq_refl).
  - apply (proj1 (proj2 (proj2 (proj2
             (operation_failures_are_swallowed
                (h := failing_device) [] [] ""
                (@mkState failing_device tt [])
                (@mkState failing_device tt []))))) H1).
Defined.

(** A check that raises is outside the [try]: when the enabled-check
    of the first package raises, [freeze] raises; no marker is printed
    and the second package is never looked at.  The installed-check
    does the same to the other two batches. *)
Lemma check_failure_aborts_the_batch :
  main.freeze
    ["com.samsung.android.bixby.agent"; "com.samsung.android.app.notes"]
    (start two_documents [inl CalledProcessError; inr ""] [])
  = (inl CalledProcessError,
     @mkState (scripted two_documents) ([inr ""], []) [Run listing_enabled]) /\
  main.uninstall
    ["com.samsung.android.bixby.agent"; "com.samsung.android.app.notes"]
    (start two_documents [inl CalledProcessError; inr ""] [])
  = (inl CalledProcessError,
     @mkState (scripted two_documents) ([inr ""], [])
       [Mkdir "/home/user/sapps";
        Run (listing_installed "com.samsung.android.bixby.agent")]) /\
  main.install_from_playstore
    ["com.samsung.android.bixby.agent"; "com.samsung.android.app.notes"]
    (start two_documents [inl CalledProcessError; inr ""] [])
  = (inl CalledProcessError,
     @mkState (scripted two_documents) ([inr ""], [])
       [Run (listing_installed "com.samsung.android.bixby.agent")]).
Proof. repeat split. Qed.

(** The checks on the listing of the package [...notes.addons]. *)
Lemma package_checks_are_substring_tests_witness :
  (exists pre post,
      "package:com.samsung.android.app.notes.addons"
      = pre ++ "com.samsung.android.app.notes" ++ post) /\
  py.str_in "com.samsung.android.app.notes"
    "package:com.samsung.android.app.notes.addons" = true.
Proof.
  assert (H : exists pre post,
             "package:com.samsung.android.app.notes.addons"
             = pre ++ "com.samsung.android.app.notes" ++ post).
  { exists "package:", ".addons". reflexivity. }
  split; [exact H|].
  apply (proj2 (proj1 (proj2 (proj2 package_checks_are_substring_tests))
                  "com.samsung.android.app.notes"
                  "package:com.samsung.android.app.notes.addons") H).
Defined.

(** * Further properties of [adb.py] and [main.py] *)

(** ** [extract] *)

Section Extract.
Context {h : Host}.

Lemma lstrip_all (chars s : string) :
  all_chars (fun c => py.char_in c chars) s = true ->
  py.lstrip chars s = "".
Proof.
  induction s as [|c r IH]; [reflexivity|].
  cbn [all_chars py.lstrip]. intros H.
  apply andb_true_iff in H as [Hc Hr]. rewrite Hc. exact (IH Hr).
Qed.

Lemma rstrip_keeps_head (chars : string) (c : ascii) (r : string) :
  py.rstrip chars (String c r) = "" \/
  exists r', py.rstrip chars (String c r) = String c r'.
Proof.
  cbn [py.rstrip]. destruct (py.rstrip chars r).
  - destruct (py.char_in c chars); [left | right; eexists]; reflexivity.
  - right. eexists. reflexivity.
Qed.

Lemma rstrip_ends_line (chars rest : string) :
  ends_line rest -> ends_line (py.rstrip chars rest).
Proof.
  intros [-> | [r ->]]; [left; reflexivity|].
  destruct (rstrip_keeps_head chars py.LF r) as [-> | [r' ->]];
    [left; reflexivity | right; eexists; reflexivity].
Qed.

(** A pattern cannot start inside text that lacks its last character,
    when what follows the text cannot continue it either. *)
Lemma startswith_needs_last (p : string) (a : ascii) (s t : string) :
  all_chars (fun c => negb (Ascii.eqb c a)) s = true ->
  (t = "" \/
   exists c r, t = String c r /\ py.char_in c (p ++ String a "") = false) ->
  py.startswith (p ++ String a "") (s ++ t) = false.
Proof.
  revert s. induction p as [|x p IH]; intros s Hs Ht.
  - destruct s as [|b s]; cbn [append py.startswith].
    + destruct Ht as [-> | (c & r & -> & Hc)]; [reflexivity|].
      cbn [append py.char_in] in Hc. apply orb_false_iff in Hc as [Hc _].
      rewrite Ascii.eqb_sym, Hc. reflexivity.
    + cbn [all_chars] in Hs. apply andb_true_iff in Hs as [Hb _].
      apply negb_true_iff in Hb. rewrite Ascii.eqb_sym, Hb. reflexivity.
  - destruct s as [|b s]; cbn [append py.startswith].
    + destruct Ht as [-> | (c & r & -> & Hc)]; [reflexivity|].
      cbn [append py.char_in] in Hc. apply orb_false_iff in Hc as [Hc _].
      rewrite Ascii.eqb_sym, Hc. reflexivity.
    + cbn [all_chars] in Hs. apply andb_true_iff in Hs as [_ Hs].
      rewrite (IH s Hs); [apply andb_false_r|].
      destruct Ht as [-> | (c & r & -> & Hc)]; [left; reflexivity|].
      right. exists c, r. split; [reflexivity|].
      cbn [append py.char_in] in Hc. apply orb_false_iff in Hc as [_ Hc].
      exact Hc.
Qed.

(** [replace("package:", "")] passes over text without a colon. *)
Lemma replace_package_free (s t : string) :
  all_chars (fun c => negb (Ascii.eqb c ":")) s = true ->
  ends_line t ->
  py.replace_from "package:" "" 0 (s ++ t)
  = s ++ py.replace_from "package:" "" 0 t.
Proof.
  intros Hs Ht. induction s as [|b s IH]; [reflexivity|].
  assert (Hno : py.startswith "package:" (String b s ++ t) = false).
  { apply (startswith_needs_last "package" ":" (String b s) t Hs).
    destruct Ht as [-> | [r ->]]; [left; reflexivity|].
    right. exists py.LF, r. split; reflexivity. }
  cbn [all_chars] in Hs. apply andb_true_iff in Hs as [_ Hs].
  change (String b s ++ t) with (String b (s ++ t)) in *.
  cbn [py.replace_from]. rewrite Hno, (IH Hs). reflexivity.
Qed.

Lemma replace_package_line (t : string) :
  ends_line t -> ends_line (py.replace_from "package:" "" 0 t).
Proof.
  intros [-> | [r ->]]; [left; reflexivity|].
  right. eexists. reflexivity.
Qed.

(** [split] with a one-character separator cuts after text without
    that character. *)
Lemma split_char_first (c : ascii) (s t : string) :
  all_chars (fun a => negb (Ascii.eqb a c)) s = true ->
  (t = "" \/ exists r, t = String c r) ->
  exists pieces, py.split_from (String c "") 0 (s ++ t) = s :: pieces.
Proof.
  intros Hs Ht. induction s as [|b s IH].
  - destruct Ht as [-> | [r ->]]; cbn [append py.split_from py.startswith].
    + eexists. reflexivity.
    + rewrite Ascii.eqb_refl. eexists. reflexivity.
  - cbn [all_chars] in Hs. apply andb_true_iff in Hs as [Hb Hs].
    apply negb_true_iff in Hb. rewrite Ascii.eqb_sym in Hb.
    destruct (IH Hs) as [pieces Hp].
    change (String b s ++ t) with (String b (s ++ t)).
    cbn [py.split_from py.startswith]. rewrite Hb. cbn [andb].
    rewrite Hp. eexists. reflexivity.
Qed.

Lemma path_chars_facts (s : string) :
  all_chars path_char s = true ->
  all_chars (fun c => negb (py.char_in c py.whitespace)) s = true /\
  all_chars (fun c => negb (Ascii.eqb c ":")) s = true /\
  all_chars (fun c => negb (Ascii.eqb c py.LF)) s = true.
Proof.
  intros H. repeat split; revert H; apply all_chars_impl; intros c Hc;
    unfold path_char in Hc; apply andb_true_iff in Hc as [Hw Hcolon];
    try assumption.
  apply negb_true_iff in Hw. apply negb_true_iff.
  destruct (Ascii.eqb c py.LF) eqn:E; [|reflexivity].
  apply Ascii.eqb_eq in E. subst c. discriminate Hw.
Qed.

(** The path [extract] reads off the first line of [pm path]. *)
Lemma apk_path_of_first_line (path rest : string) :
  all_chars path_char path = true ->
  ends_line rest ->
  exists pieces,
    py.split py.nl
      (py.replace "package:" "" (py.strip_ws ("package:" ++ path ++ rest)))
    = inr (path :: pieces).
Proof.
  intros Hpath Hrest.
  destruct (path_chars_facts _ Hpath) as (Hws & Hcolon & Hlf).
  assert (Hstrip : py.strip_ws ("package:" ++ path ++ rest)
                   = "package:" ++ path ++ py.rstrip py.whitespace rest).
  { unfold py.strip_ws, py.strip.
    change (py.lstrip py.whitespace ("package:" ++ path ++ rest))
      with ("package:" ++ path ++ rest).
    rewrite (rstrip_app py.whitespace "package:" _ eq_refl).
    rewrite (rstrip_app _ _ _ Hws). reflexivity. }
  rewrite Hstrip. clear Hstrip.
  pose proof (rstrip_ends_line py.whitespace rest Hrest) as HR.
  set (R := py.rstrip py.whitespace rest) in *.
  unfold py.replace.
  change (py.replace_from "package:" "" 0 ("package:" ++ path ++ R))
    with (py.replace_from "package:" "" 0 (path ++ R)).
  rewrite (replace_package_free _ _ Hcolon HR).
  pose proof (replace_package_line R HR) as HR'.
  unfold py.split, py.nl.
  destruct (split_char_first py.LF path _ Hlf HR') as [pieces ->].
  exists pieces. reflexivity.
Qed.

(** X1. When [pm path] prints [package:<path>] on its first line,
    [extract] pulls exactly that path to [<target>/<package>.apk],
    whatever lines follow, and ends as the pull command ends. *)
Theorem extract_pulls_first_path
  (package target path rest : string) (w w1 : World h) (tr : list Event) :
  subprocess_run h (path_command package) w
  = (inr ("package:" ++ path ++ rest), w1) ->
  path <> "" ->
  all_chars path_char path = true ->
  ends_line rest ->
  adb.extract package target (mkState w tr)
  = (match fst (subprocess_run h (pull_command path target package) w1) with
     | inl e => inl e
     | inr _ => inr tt
     end,
     mkState (snd (subprocess_run h (pull_command path target package) w1))
       (tr ++ [Run (path_command package);
               Run (pull_command path target package)])).
Proof.
  intros Hrun Hne Hpath Hrest.
  destruct (apk_path_of_first_line path rest Hpath Hrest) as [pieces Hp].
  unfold adb.extract, bind. rewrite run_adb_command_eq.
  fold (path_command package). cbn [world trace]. rewrite Hrun.
  cbn [fst snd]. unfold lift. rewrite Hp. cbn [hd].
  destruct path as [|c path]; [contradiction|].
  rewrite run_adb_command_eq. cbn [world trace].
  fold (pull_command (String c path) target package).
  destruct (subprocess_run h (pull_command (String c path) target package) w1)
    as [[e|out] w2]; cbn [fst snd]; rewrite <- app_assoc; reflexivity.
Qed.

(** X2. When [pm path] prints nothing but whitespace, [extract] returns
    normally after that one command: nothing is pulled and nothing is
    raised. *)
Theorem extract_without_path_pulls_nothing
  (package target stdout : string) (w w1 : World h) (tr : list Event) :
  subprocess_run h (path_command package) w = (inr stdout, w1) ->
  all_chars (fun c => py.char_in c py.whitespace) stdout = true ->
  adb.extract package target (mkState w tr)
  = (inr tt, mkState w1 (tr ++ [Run (path_command package)])).
Proof.
  intros Hrun Hblank.
  unfold adb.extract, bind. rewrite run_adb_command_eq.
  fold (path_command package). cbn [world trace]. rewrite Hrun.
  cbn [fst snd]. unfold py.strip_ws, py.strip.
  rewrite (lstrip_all _ _ Hblank). reflexivity.
Qed.

End Extract.

(** ** The checks *)

Section Checks.
Context {h : Host}.

Lemma splitlines_one_line (s : string) :
  all_chars (fun c => negb (py.char_in c py.linebreaks)) s = true ->
  py.splitlines_from false s = match s with "" => [] | _ => [s] end.
Proof.
  induction s as [|c r IH]; [reflexivity|].
  cbn [all_chars]. intros H. apply andb_true_iff in H as [Hc Hr].
  apply negb_true_iff in Hc.
  cbn [py.splitlines_from andb]. rewrite Hc, (IH Hr).
  destruct r; reflexivity.
Qed.

Lemma splitlines_first_line (first rest : string) :
  all_chars (fun c => negb (py.char_in c py.linebreaks)) first = true ->
  py.splitlines_from false (first ++ String py.LF rest)
  = first :: py.splitlines_from false rest.
Proof.
  induction first as [|c r IH]; [reflexivity|].
  cbn [all_chars]. intros H. apply andb_true_iff in H as [Hc Hr].
  apply negb_true_iff in Hc.
  change (String c r ++ String py.LF rest)
    with (String c (r ++ String py.LF rest)).
  cbn [py.splitlines_from andb]. rewrite Hc, (IH Hr). reflexivity.
Qed.

(** X3. [is_connected] never counts the first line of [adb devices]:
    its answer is whether a later line contains [device], whatever the
    first line says; an output of a single line answers [False]. *)
Theorem is_connected_skips_first_line
  (first : string) (w w' : World h) (tr : list Event) :
  all_chars (fun c => negb (py.char_in c py.linebreaks)) first = true ->
  (forall rest : string,
      subprocess_run h ["adb"; "devices"] w
      = (inr (first ++ String py.LF rest), w') ->
      adb.is_connected (mkState w tr)
      = (inr (existsb (py.str_in "device") (py.splitlines rest)),
         mkState w' (tr ++ [Run ["adb"; "devices"]]))) /\
  (subprocess_run h ["adb"; "devices"] w = (inr first, w') ->
   adb.is_connected (mkState w tr)
   = (inr false, mkState w' (tr ++ [Run ["adb"; "devices"]]))).
Proof.
  intros Hfirst. split.
  - intros rest Hrun. unfold adb.is_connected, bind.
    rewrite run_adb_command_eq. cbn [world trace]. rewrite Hrun.
    cbn [fst snd]. unfold py.splitlines.
    rewrite (splitlines_first_line _ _ Hfirst). reflexivity.
  - intros Hrun. unfold adb.is_connected, bind.
    rewrite run_adb_command_eq. cbn [world trace]. rewrite Hrun.
    cbn [fst snd]. unfold py.splitlines.
    rewrite (splitlines_one_line _ Hfirst). destruct first; reflexivity.
Qed.

(** X4. The checks miss no listed package: when the listing contains
    [package:<name>], [is_installed] and [is_enabled] answer [True]
    for [<name>]. *)
Theorem listed_package_is_found
  (package pre post : string) (w w' : World h) (tr : list Event) :
  (subprocess_run h (listing_installed package) w
   = (inr (pre ++ "package:" ++ package ++ post), w') ->
   adb.is_installed package (mkState w tr)
   = (inr true, mkState w' (tr ++ [Run (listing_installed package)]))) /\
  (subprocess_run h listing_enabled w
   = (inr (pre ++ "package:" ++ package ++ post), w') ->
   adb.is_enabled package (mkState w tr)
   = (inr true, mkState w' (tr ++ [Run listing_enabled]))).
Proof.
  assert (Hin : py.str_in package (pre ++ "package:" ++ package ++ post)
                = true).
  { apply str_in_spec. exists (pre ++ "package:"), post.
    rewrite append_assoc'. reflexivity. }
  split; intros Hrun.
  - unfold adb.is_installed, bind. rewrite run_adb_command_eq.
    fold (listing_installed package). cbn [world trace]. rewrite Hrun.
    cbn [fst snd]. unfold ret. rewrite Hin. reflexivity.
  - unfold adb.is_enabled, bind. rewrite run_adb_command_eq.
    fold listing_enabled. cbn [world trace]. rewrite Hrun.
    cbn [fst snd]. unfold ret. rewrite Hin. reflexivity.
Qed.

End Checks.

(** ** The rectangle *)

Section Rectangle.

(** X5. The point the locator returns lies inside the rectangle: for
    bounds with [x1 <= x2] and [y1 <= y2] the result [(x, y)] has
    [x1 <= x <= x2] and [y1 <= y <= y2]. *)
Theorem bounds_center_inside_rectangle
  (node : etree.Element) (x1 y1 x2 y2 : Z) :
  etree.get "bounds" (etree.attrib node) = Some (bounds_string x1 y1 x2 y2) ->
  x1 <= x2 -> y1 <= y2 ->
  exists x y,
    adb.bounds_center node = inr (x, y) /\
    x1 <= x <= x2 /\ y1 <= y <= y2.
Proof.
  intros Hb Hx Hy.
  exists ((x1 + x2) / 2), ((y1 + y2) / 2).
  split; [apply bounds_center_of_string, Hb|].
  pose proof (Z.div_mod (x1 + x2) 2 ltac:(lia)).
  pose proof (Z.mod_pos_bound (x1 + x2) 2 ltac:(lia)).
  pose proof (Z.div_mod (y1 + y2) 2 ltac:(lia)).
  pose proof (Z.mod_pos_bound (y1 + y2) 2 ltac:(lia)).
  lia.
Qed.

Lemma int_raises_value_error (s : string) (e : exn) :
  py.int s = inl e -> e = ValueError.
Proof.
  unfold py.int.
  destruct (match py.strip py.int_whitespace s with
            | String "-" r => (-1, r)
            | String "+" r => (1, r)
            | _ => (1, py.strip py.int_whitespace s)
            end) as [sign body].
  destruct (py.int_digits 0 false body); congruence.
Qed.

Lemma map_int_raises_value_error (l : list string) (e : exn) :
  py.map_result py.int l = inl e -> e = ValueError.
Proof.
  induction l as [|s l IH]; cbn [py.map_result]; [discriminate|].
  destruct (py.int s) as [e'|v] eqn:E.
  - intros H. injection H as <-. apply (int_raises_value_error _ _ E).
  - destruct (py.map_result py.int l); [|discriminate].
    intros H. injection H as <-. apply IH. reflexivity.
Qed.

(** X6. The closing statements of the locator raise [AttributeError]
    exactly when the node has no [bounds] attribute; with the attribute
    present they return a point or raise [ValueError], nothing else. *)
Theorem bounds_center_errors (node : etree.Element) :
  (adb.bounds_center node = inl AttributeError <->
   etree.get "bounds" (etree.attrib node) = None) /\
  (etree.get "bounds" (etree.attrib node) <> None ->
   adb.bounds_center node = inl ValueError \/
   exists x y, adb.bounds_center node = inr (x, y)).
Proof.
  unfold adb.bounds_center.
  destruct (etree.get "bounds" (etree.attrib node)) as [bounds|].
  - unfold py.split.
    destruct (py.map_result py.int
                (py.split_from "," 0
                   (py.strip "[]" (py.replace "][" "," bounds))))
      as [e|l] eqn:E.
    + apply map_int_raises_value_error in E. subst e.
      split; [split; discriminate | intros _; left; reflexivity].
    + split.
      * split; [|discriminate].
        destruct l as [|? [|? [|? [|? [|? ?]]]]]; discriminate.
      * intros _.
        destruct l as [|x1 [|y1 [|x2 [|y2 [|? ?]]]]];
          try (left; reflexivity).
        right. eexists _, _. reflexivity.
  - split; [split; reflexivity | intros H; contradiction].
Qed.

End Rectangle.

(** ** The retry loop *)

Section RetryLoop.
Context {h : Host}.

(** One turn of the loop, whatever the surroundings answer. *)
Lemma loop_step (n : nat) (w : World h) (tr : list Event) :
  adb.find_install_loop (S n) (mkState w tr)
  = match subprocess_run h dump_command w with
    | (inl e, w1) => (inl e, mkState w1 (tr ++ [Sleep 1; Run dump_command]))
    | (inr _, w1) =>
        match subprocess_run h cat_command w1 with
        | (inl e, w2) => (inl e, mkState w2 (tr ++ attempt_events))
        | (inr stdout, w2) =>
            match fromstring h stdout with
            | None => (inl ParseError, mkState w2 (tr ++ attempt_events))
            | Some root =>
                match adb.next_install (ui_nodes root) with
                | Some button =>
                    (inr (Some button), mkState w2 (tr ++ attempt_events))
                | None =>
                    adb.find_install_loop n (mkState w2 (tr ++ attempt_events))
                end
            end
        end
    end.
Proof.
  cbn [adb.find_install_loop].
  unfold bind, sleep, adb.run_adb_command, call, raise, ret.
  cbn [world trace]. fold dump_command cat_command.
  destruct (subprocess_run h dump_command w) as [[e|out1] w1];
    cbn [world trace].
  { rewrite <- app_assoc. reflexivity. }
  assert (Htr : (((tr ++ [Sleep 1]) ++ [Run dump_command])
                 ++ [Run cat_command])%list = (tr ++ attempt_events)%list).
  { unfold attempt_events. rewrite <- !app_assoc. reflexivity. }
  destruct (subprocess_run h cat_command w1) as [[e|stdout] w2];
    rewrite Htr; [reflexivity|].
  destruct (fromstring h stdout) as [root|]; [|reflexivity].
  fold (ui_nodes root).
  destruct (adb.next_install (ui_nodes root)); reflexivity.
Qed.

Lemma next_install_none_inv (nodes : list etree.Element) :
  adb.next_install nodes = None ->
  Forall (fun node => label node <> Some "Install") nodes.
Proof.
  unfold adb.next_install. intros Hnone. apply Forall_forall.
  intros node Hin Hlabel. apply is_install_label in Hlabel.
  rewrite (find_none _ _ Hnone _ Hin) in Hlabel. discriminate.
Qed.

Lemma next_install_some_inv (nodes : list etree.Element)
  (button : etree.Element) :
  adb.next_install nodes = Some button ->
  exists pre post,
    nodes = (pre ++ button :: post)%list /\
    Forall (fun node => label node <> Some "Install") pre /\
    label button = Some "Install".
Proof.
  unfold adb.next_install.
  induction nodes as [|node nodes IH]; cbn [find]; [discriminate|].
  destruct (adb.is_install node) eqn:E.
  - intros H. injection H as <-. exists [], nodes.
    split; [reflexivity|]. split; [constructor|].
    apply is_install_label, E.
  - intros H. destruct (IH H) as (pre & post & -> & Hpre & Hb).
    exists (node :: pre), post. split; [reflexivity|]. split; [|exact Hb].
    constructor; [|exact Hpre].
    intros Hl. apply is_install_label in Hl. congruence.
Qed.

(** The loop ends in its [else] only after [n] retrievals without the
    label. *)
Lemma loop_none_inv (n : nat) (w : World h) (tr : list Event)
  (s' : State h) :
  adb.find_install_loop n (mkState w tr) = (inr None, s') ->
  exists roots,
    serves w roots (world s') /\ List.length roots = n /\
    Forall no_install roots.
Proof.
  revert w tr. induction n as [|n IH]; intros w tr.
  - cbn [adb.find_install_loop]. unfold ret. intros H. injection H as <-.
    exists []. repeat split; constructor.
  - rewrite loop_step.
    destruct (subprocess_run h dump_command w) as [[e|out1] w1] eqn:Hdump;
      [discriminate|].
    destruct (subprocess_run h cat_command w1) as [[e|stdout] w2] eqn:Hcat;
      [discriminate|].
    destruct (fromstring h stdout) as [root|] eqn:Hparse; [|discriminate].
    destruct (adb.next_install (ui_nodes root)) eqn:Hnext; [discriminate|].
    intros H. destruct (IH _ _ H) as (roots & Hserves & Hlen & Hall).
    exists (root :: roots). split; [|split].
    + econstructor; [|exact Hserves]. exists out1, w1, stdout. auto.
    + cbn [List.length]. congruence.
    + constructor; [apply next_install_none_inv, Hnext | exact Hall].
Qed.

(** The loop breaks only on a retrieved document, after fewer than [n]
    retrievals without the label. *)
Lemma loop_some_inv (n : nat) (w : World h) (tr : list Event)
  (s' : State h) (button : etree.Element) :
  adb.find_install_loop n (mkState w tr) = (inr (Some button), s') ->
  exists roots w1 root,
    serves w roots w1 /\ Forall no_install roots /\
    (List.length roots < n)%nat /\
    retrieves w1 root (world s') /\
    adb.next_install (ui_nodes root) = Some button.
Proof.
  revert w tr. induction n as [|n IH]; intros w tr.
  - cbn [adb.find_install_loop]. unfold ret. discriminate.
  - rewrite loop_step.
    destruct (subprocess_run h dump_command w) as [[e|out1] w1] eqn:Hdump;
      [discriminate|].
    destruct (subprocess_run h cat_command w1) as [[e|stdout] w2] eqn:Hcat;
      [discriminate|].
    destruct (fromstring h stdout) as [root|] eqn:Hparse; [|discriminate].
    assert (Hr : retrieves w root w2) by (exists out1, w1, stdout; auto).
    destruct (adb.next_install (ui_nodes root)) as [b|] eqn:Hnext.
    + intros H. injection H as <- <-.
      exists [], w, root. cbn [world List.length].
      split; [constructor|]. split; [constructor|].
      split; [lia|]. split; assumption.
    + intros H.
      destruct (IH _ _ H) as (roots & w3 & root' & Hs & Hall & Hlen & Hr' & Hb).
      exists (root :: roots), w3, root'. repeat split; try assumption.
      * econstructor; eassumption.
      * constructor; [apply next_install_none_inv, Hnext | exact Hall].
      * cbn [List.length]. lia.
Qed.

(** What the loop adds to the trace is a beginning of [n] attempts. *)
Lemma loop_trace (n : nat) (w : World h) (tr : list Event) :
  exists m,
    trace (snd (adb.find_install_loop n (mkState w tr)))
    = (tr ++ firstn m (attempts_events n))%list.
Proof.
  revert w tr. induction n as [|n IH]; intros w tr.
  - exists 0%nat. cbn. rewrite app_nil_r. reflexivity.
  - rewrite loop_step.
    destruct (subprocess_run h dump_command w) as [[e|out1] w1];
      [exists 2%nat; reflexivity|].
    destruct (subprocess_run h cat_command w1) as [[e|stdout] w2];
      [exists 3%nat; reflexivity|].
    destruct (fromstring h stdout) as [root|]; [|exists 3%nat; reflexivity].
    destruct (adb.next_install (ui_nodes root));
      [exists 3%nat; reflexivity|].
    destruct (IH w2 (tr ++ attempt_events)%list) as [m Hm].
    exists (3 + m)%nat. rewrite Hm, <- app_assoc. reflexivity.
Qed.

(** X7. [find_install_button] returns [None] only when five
    retrievals in a row succeeded and each document had no node
    labelled [Install]. *)
Theorem find_install_button_none_inv
  (w : World h) (tr : list Event) (s' : State h) :
  adb.find_install_button (mkState w tr) = (inr None, s') ->
  exists roots,
    serves w roots (world s') /\
    List.length roots = adb.max_attempts /\
    Forall no_install roots.
Proof.
  unfold adb.find_install_button, bind.
  destruct (adb.find_install_loop adb.max_attempts (mkState w tr))
    as [[e|[button|]] s1] eqn:Hloop; [discriminate | | ].
  - unfold lift, ret. destruct (adb.bounds_center button); discriminate.
  - unfold ret. intros H. injection H as <-.
    apply (loop_none_inv _ _ _ _ Hloop).
Qed.

(** X8. A point [find_install_button] returns is the middle of the
    first node labelled [Install] of a document it retrieved, after
    fewer than five documents without the label. *)
Theorem find_install_button_some_inv
  (w : World h) (tr : list Event) (s' : State h) (xy : Z * Z) :
  adb.find_install_button (mkState w tr) = (inr (Some xy), s') ->
  exists roots w1 root pre node post,
    serves w roots w1 /\ Forall no_install roots /\
    (List.length roots < adb.max_attempts)%nat /\
    retrieves w1 root (world s') /\
    ui_nodes root = (pre ++ node :: post)%list /\
    Forall (fun n => label n <> Some "Install") pre /\
    label node = Some "Install" /\
    adb.bounds_center node = inr xy.
Proof.
  unfold adb.find_install_button, bind.
  destruct (adb.find_install_loop adb.max_attempts (mkState w tr))
    as [[e|[button|]] s1] eqn:Hloop; [discriminate | | discriminate].
  unfold lift, ret.
  destruct (adb.bounds_center button) as [e|xy'] eqn:Hcenter; [discriminate|].
  intros H. injection H as <- <-.
  destruct (loop_some_inv _ _ _ _ _ Hloop)
    as (roots & w1 & root & Hs & Hall & Hlen & Hr & Hnext).
  destruct (next_install_some_inv _ _ Hnext) as (pre & post & Hn & Hpre & Hb).
  exists roots, w1, root, pre, button, post. repeat split; assumption.
Qed.

(** X9. Whatever the surroundings answer, what [find_install_button]
    adds to the trace is a beginning of five attempts, each a sleep of
    one second, the dump command and the cat command: it never makes a
    sixth attempt and never runs anything else. *)
Theorem find_install_button_bounded (s : State h) :
  exists m,
    trace (snd (adb.find_install_button s))
    = (trace s ++ firstn m (attempts_events adb.max_attempts))%list.
Proof.
  destruct s as [w tr]. cbn [trace].
  destruct (loop_trace adb.max_attempts w tr) as [m Hm]. exists m.
  unfold adb.find_install_button, bind.
  destruct (adb.find_install_loop adb.max_attempts (mkState w tr))
    as [[e|[button|]] s1]; cbn [snd] in Hm |- *; try exact Hm.
  unfold lift, ret. destruct (adb.bounds_center button); exact Hm.
Qed.

End RetryLoop.

(** ** What the script does to its surroundings *)

Section Events.
Context {h : Host}.
Variable P : Event -> Prop.

Lemma appends_ret {A : Type} (a : A) : appends P (ret (h := h) a).
Proof. intros s. exists []. rewrite app_nil_r. split; [reflexivity|constructor]. Qed.

Lemma appends_raise {A : Type} (e : exn) : appends P (raise (h := h) (A := A) e).
Proof. intros s. exists []. rewrite app_nil_r. split; [reflexivity|constructor]. Qed.

Lemma appends_lift {A : Type} (r : result A) : appends P (lift (h := h) r).
Proof. intros s. exists []. rewrite app_nil_r. split; [reflexivity|constructor]. Qed.

Lemma appends_bind {A B : Type} (m : M h A) (k : A -> M h B) :
  appends P m -> (forall a, appends P (k a)) -> appends P (bind m k).
Proof.
  intros Hm Hk s. unfold bind.
  destruct (Hm s) as (ev1 & H1 & F1).
  destruct (m s) as [[e|a] s1]; cbn [snd] in *.
  - exists ev1. split; assumption.
  - destruct (Hk a s1) as (ev2 & H2 & F2).
    exists (ev1 ++ ev2)%list. rewrite H2, H1, app_assoc.
    split; [reflexivity | apply Forall_app; split; assumption].
Qed.

Lemma appends_call {A : Type} (ev : Event)
  (f : World h -> result A * World h) :
  P ev -> appends P (call ev f).
Proof.
  intros Hev s. unfold call. exists [ev].
  destruct (f (world s)). split; [reflexivity | repeat constructor; exact Hev].
Qed.

Lemma appends_print (text end_ : string) :
  P (Print text end_) -> appends P (print (h := h) text end_).
Proof.
  intros Hev s. exists [Print text end_].
  split; [reflexivity | repeat constructor; exact Hev].
Qed.

Lemma appends_sleep (seconds : Z) :
  P (Sleep seconds) -> appends P (sleep (h := h) seconds).
Proof.
  intros Hev s. exists [Sleep seconds].
  split; [reflexivity | repeat constructor; exact Hev].
Qed.

Lemma appends_try_except {A : Type} (body handler : M h A) :
  appends P body -> appends P handler -> appends P (try_except body handler).
Proof.
  intros Hb Hh s. unfold try_except.
  destruct (Hb s) as (ev1 & H1 & F1).
  destruct (body s) as [[e|a] s1]; cbn [snd] in *.
  - destruct (Hh s1) as (ev2 & H2 & F2).
    exists (ev1 ++ ev2)%list. rewrite H2, H1, app_assoc.
    split; [reflexivity | apply Forall_app; split; assumption].
  - exists ev1. split; assumption.
Qed.

Lemma appends_try_except_else {A B : Type} (body : M h A)
  (handler orelse : M h B) :
  appends P body -> appends P handler -> appends P orelse ->
  appends P (try_except_else body handler orelse).
Proof.
  intros Hb Hh Ho s. unfold try_except_else.
  destruct (Hb s) as (ev1 & H1 & F1).
  destruct (body s) as [[e|a] s1]; cbn [snd] in *;
    [destruct (Hh s1) as (ev2 & H2 & F2) | destruct (Ho s1) as (ev2 & H2 & F2)];
    exists (ev1 ++ ev2)%list; rewrite H2, H1, app_assoc;
    (split; [reflexivity | apply Forall_app; split; assumption]).
Qed.

Lemma appends_try_finally {A : Type} (body : M h A) (final : M h unit) :
  appends P body -> appends P final -> appends P (try_finally body final).
Proof.
  intros Hb Hf s. unfold try_finally.
  destruct (Hb s) as (ev1 & H1 & F1).
  destruct (body s) as [r s1]; cbn [snd] in *.
  destruct (Hf s1) as (ev2 & H2 & F2).
  exists (ev1 ++ ev2)%list.
  destruct (final s1) as [[e|u] s2]; cbn [snd] in *;
    rewrite H2, H1, app_assoc;
    (split; [reflexivity | apply Forall_app; split; assumption]).
Qed.

Lemma appends_for_each {A : Type} (l : list A) (body : A -> M h unit) :
  (forall x, appends P (body x)) -> appends P (for_each l body).
Proof.
  intros Hbody. induction l as [|x l IH]; cbn [for_each].
  - apply appends_ret.
  - apply appends_bind; [apply Hbody | intros _; exact IH].
Qed.

(** From here on [P] admits every run of [adb], every print, every
    sleep and every directory. *)
Hypothesis P_run : forall args, P (Run ("adb" :: args)).
Hypothesis P_print : forall text end_, P (Print text end_).
Hypothesis P_sleep : forall seconds, P (Sleep seconds).
Hypothesis P_mkdir : forall path, P (Mkdir path).

Lemma appends_adb (args : list string) :
  appends P (adb.run_adb_command (h := h) ("adb" :: args)).
Proof. apply appends_call, P_run. Qed.

Lemma appends_adb_unit (args : list string) :
  appends P (adb.run_adb_command (h := h) ("adb" :: args) ;; ret tt).
Proof. apply appends_bind; [apply appends_adb | intros _; apply appends_ret]. Qed.

Lemma appends_check (args : list string) (f : string -> bool) :
  appends P (stdout <- adb.run_adb_command (h := h) ("adb" :: args) ;;
             ret (f stdout)).
Proof. apply appends_bind; [apply appends_adb | intros ?; apply appends_ret]. Qed.

Lemma appends_extract (package target : string) :
  appends P (adb.extract (h := h) package target).
Proof.
  unfold adb.extract.
  apply appends_bind; [apply appends_adb | intros stdout].
  apply appends_bind; [apply appends_lift | intros pieces].
  destruct (hd "" pieces); [apply appends_ret | apply appends_adb_unit].
Qed.

Lemma appends_uninstall (package : string) :
  appends P (adb.uninstall (h := h) package).
Proof.
  unfold adb.uninstall. apply appends_try_finally;
    [apply appends_try_except; [apply appends_adb_unit | apply appends_ret]
    | apply appends_adb_unit].
Qed.

Lemma appends_disable (package : string) :
  appends P (adb.disable (h := h) package).
Proof.
  unfold adb.disable. apply appends_try_finally;
    [apply appends_try_except; [apply appends_adb_unit | apply appends_ret]
    | apply appends_adb_unit].
Qed.

Lemma appends_find_install_loop (n : nat) :
  appends P (adb.find_install_loop (h := h) n).
Proof.
  induction n as [|n IH]; cbn [adb.find_install_loop].
  - apply appends_ret.
  - apply appends_bind; [apply appends_sleep, P_sleep | intros _].
    apply appends_bind; [apply appends_adb | intros _].
    apply appends_bind; [apply appends_adb | intros stdout].
    destruct (fromstring h stdout) as [root|]; [|apply appends_raise].
    destruct (adb.next_install _); [apply appends_ret | exact IH].
Qed.

Lemma appends_install_from_playstore (package : string) :
  appends P (adb.install_from_playstore (h := h) package).
Proof.
  unfold adb.install_from_playstore, adb.navigate_playstore,
    adb.click_install_in_playstore, adb.find_install_button, adb.tap.
  apply appends_bind; [apply appends_adb_unit | intros _].
  apply appends_bind.
  - apply appends_bind; [apply appends_find_install_loop | intros found].
    destruct found as [button|]; [|apply appends_ret].
    apply appends_bind; [apply appends_lift | intros xy; apply appends_ret].
  - intros [[x y]|]; [apply appends_adb_unit | apply appends_raise].
Qed.

Lemma appends_freeze (to_freezze : list string) :
  appends P (main.freeze (h := h) to_freezze).
Proof.
  unfold main.freeze. apply appends_for_each. intros package.
  unfold main.freeze_package, adb.is_enabled, adb.clear_data.
  apply appends_bind; [apply appends_check | intros enabled].
  destruct enabled; cbn [negb]; [|apply appends_ret].
  apply appends_bind; [apply appends_print, P_print | intros _].
  apply appends_try_except_else; try (apply appends_print, P_print).
  apply appends_bind; [apply appends_adb_unit | intros _].
  apply appends_disable.
Qed.

Lemma appends_main_uninstall (to_uninstall : list string) :
  appends P (main.uninstall (h := h) to_uninstall).
Proof.
  unfold main.uninstall, mkdir.
  apply appends_bind; [apply appends_call, P_mkdir | intros _].
  apply appends_for_each. intros package.
  unfold main.uninstall_package, adb.is_installed, adb.clear_data.
  apply appends_bind; [apply appends_check | intros installed].
  destruct installed; cbn [negb]; [|apply appends_ret].
  apply appends_bind; [apply appends_print, P_print | intros _].
  apply appends_try_except_else; try (apply appends_print, P_print).
  apply appends_bind; [apply appends_adb_unit | intros _].
  apply appends_bind; [apply appends_extract | intros _].
  apply appends_uninstall.
Qed.

Lemma appends_main_install (to_install_from_playstore : list string) :
  appends P (main.install_from_playstore (h := h) to_install_from_playstore).
Proof.
  unfold main.install_from_playstore. apply appends_for_each. intros package.
  unfold main.install_package, adb.is_installed.
  apply appends_bind; [apply appends_check | intros installed].
  destruct installed; [apply appends_ret|].
  apply appends_bind; [apply appends_print, P_print | intros _].
  apply appends_try_except_else; try (apply appends_print, P_print).
  apply appends_install_from_playstore.
Qed.

Lemma appends_batches
  (to_freezze to_install_from_playstore to_uninstall : list string) :
  appends P (main.freeze (h := h) to_freezze ;;
             main.uninstall to_uninstall ;;
             main.install_from_playstore to_install_from_playstore).
Proof.
  apply appends_bind; [apply appends_freeze | intros _].
  apply appends_bind; [apply appends_main_uninstall | intros _].
  apply appends_main_install.
Qed.

(** [connect] also reads standard input. *)
Lemma appends_connect :
  (forall prompt, P (Input prompt)) -> appends P (main.connect (h := h)).
Proof.
  intros P_input.
  unfold main.connect, adb.is_connected, adb.connect, adb.pair, input.
  apply appends_bind; [apply appends_check | intros connected].
  destruct connected; cbn [negb]; [apply appends_ret|].
  apply appends_bind; [apply appends_call, P_input | intros url].
  apply appends_bind; [apply appends_adb_unit | intros _].
  apply appends_bind; [apply appends_check | intros connected'].
  destruct connected'; cbn [negb]; [apply appends_ret|].
  apply appends_bind; [apply appends_print, P_print | intros _].
  apply appends_bind; [apply appends_call, P_input | intros pairing_url].
  apply appends_bind; [apply appends_call, P_input | intros code].
  apply appends_bind; [apply appends_adb_unit | intros _].
  apply appends_adb_unit.
Qed.

End Events.

Section WholeScript.
Context {h : Host}.
Variables to_freezze to_install_from_playstore to_uninstall : list string.

(** X10. Whatever the surroundings answer, [main] only adds events to
    the trace and runs no executable other than [adb]; the same holds
    of [install] and [enable], which [main] does not reach. *)
Theorem main_runs_only_adb :
  appends runs_adb
    (main.main (h := h) to_freezze to_install_from_playstore to_uninstall) /\
  (forall apk_path, appends runs_adb (adb.install (h := h) apk_path)) /\
  (forall package, appends runs_adb (adb.enable (h := h) package)).
Proof.
  assert (Hrun : forall args, runs_adb (Run ("adb" :: args)))
    by (intros args; reflexivity).
  split; [|split].
  - unfold main.main. apply appends_bind.
    + apply appends_connect; intros; exact I || apply Hrun.
    + intros _. apply appends_batches; intros; exact I || apply Hrun.
  - intros apk_path. apply appends_adb_unit, Hrun.
  - intros package. apply appends_adb_unit, Hrun.
Qed.

(** X11. The three batches never read standard input, whatever the
    surroundings answer: only [connect] prompts. *)
Theorem batches_never_prompt :
  appends no_input (main.freeze (h := h) to_freezze) /\
  appends no_input (main.uninstall (h := h) to_uninstall) /\
  appends no_input
    (main.install_from_playstore (h := h) to_install_from_playstore).
Proof.
  split; [|split].
  - apply appends_freeze; intros; exact I.
  - apply appends_main_uninstall; intros; exact I.
  - apply appends_main_install; intros; exact I.
Qed.

End WholeScript.

(** ** The operations inside the batches *)

Section Operations.
Context {h : Host}.

(** X12. When the Play Store page never shows the button, so that
    [find_install_button] returns [None], [install_from_playstore]
    raises [TypeError] without tapping, and the loop body of the
    install batch reports it with the failure marker. *)
Theorem missing_button_is_a_failure
  (package : string) (s s1 s2 s3 : State h) :
  adb.is_installed package s = (inr false, s1) ->
  (print ("Installing: " ++ package ++ "...") " " ;;
   adb.navigate_playstore package) s1 = (inr tt, s2) ->
  adb.find_install_button s2 = (inr None, s3) ->
  adb.install_from_playstore package
    (mkState (world s1)
       (trace s1 ++ [Print ("Installing: " ++ package ++ "...") " "]))
  = (inl TypeError, s3) /\
  main.install_package package s
  = (inr tt, mkState (world s3) (trace s3 ++ [failed_marker])).
Proof.
  intros Hcheck Hnav Hfind.
  assert (Hop : adb.install_from_playstore package
                  (mkState (world s1)
                     (trace s1
                      ++ [Print ("Installing: " ++ package ++ "...") " "]))
                = (inl TypeError, s3)).
  { unfold bind, print in Hnav.
    unfold adb.install_from_playstore, bind.
    destruct (adb.navigate_playstore package _) as [[e|[]] s2'];
      [discriminate|].
    injection Hnav as ->.
    unfold adb.click_install_in_playstore, bind. rewrite Hfind.
    reflexivity. }
  split; [exact Hop|].
  unfold main.install_package. unfold bind at 1. rewrite Hcheck.
  unfold bind, print, try_except_else. rewrite Hop. reflexivity.
Qed.

(** What [extract] adds to the trace. *)
Lemma extract_trace (package target : string) (s : State h) :
  trace (snd (adb.extract package target s))
  = (trace s ++ [Run (path_command package)])%list \/
  exists apk_path,
    trace (snd (adb.extract package target s))
    = (trace s ++ [Run (path_command package);
                   Run (pull_command apk_path target package)])%list.
Proof.
  unfold adb.extract, bind. rewrite run_adb_command_eq.
  fold (path_command package).
  destruct (fst (subprocess_run h (path_command package) (world s)))
    as [e|stdout]; [left; reflexivity|].
  unfold lift.
  destruct (py.split py.nl _) as [e|pieces]; [left; reflexivity|].
  destruct (hd "" pieces) as [|c apk] eqn:Hhd; [left; reflexivity|].
  right. exists (String c apk). rewrite run_adb_command_eq.
  fold (pull_command (String c apk) target package). cbn [world trace].
  destruct (fst (subprocess_run h _ _)); cbn [snd trace];
    rewrite <- app_assoc; reflexivity.
Qed.

(** X13. When the backup fails, the package stays: if [extract]
    raises, the loop body of the uninstall batch prints the failure
    marker and returns, and since the data was cleared it has run
    nothing but the path command and at most one pull; no uninstall
    command is run. *)
Theorem failed_extract_prevents_uninstall
  (target package : string) (s s1 s2 s3 : State h) (e : exn) :
  adb.is_installed package s = (inr true, s1) ->
  (print ("Uninstalling: " ++ package ++ "...") " " ;;
   adb.clear_data package) s1 = (inr tt, s2) ->
  adb.extract package target s2 = (inl e, s3) ->
  main.uninstall_package target package s
  = (inr tt, mkState (world s3) (trace s3 ++ [failed_marker])) /\
  (trace s3 = (trace s2 ++ [Run (path_command package)])%list \/
   exists apk_path,
     trace s3 = (trace s2 ++ [Run (path_command package);
                              Run (pull_command apk_path target package)])%list).
Proof.
  intros Hcheck Hclear Hextract. split.
  - unfold main.uninstall_package. unfold bind at 1. rewrite Hcheck.
    cbn [negb]. unfold bind, print, try_except_else in *.
    destruct (adb.clear_data package _) as [[e'|[]] s2']; [discriminate|].
    injection Hclear as ->. rewrite Hextract. reflexivity.
  - pose proof (extract_trace package target s2) as H.
    rewrite Hextract in H. exact H.
Qed.

(** X14. [disable] runs the uninstall command for all users first and
    disregards how it ended, then runs [pm disable-user] in either
    case; it raises exactly when the latter raises. *)
Theorem disable_uninstalls_first
  (package : string) (w : World h) (tr : list Event) :
  let all_users := ["adb"; "uninstall"; package] in
  let disable_user := ["adb"; "shell"; "pm"; "disable-user"; package] in
  let '(r1, w1) := subprocess_run h all_users w in
  let '(r2, w2) := subprocess_run h disable_user w1 in
  adb.disable package (mkState w tr)
  = (match r2 with inl e => inl e | inr _ => inr tt end,
     mkState w2 (tr ++ [Run all_users; Run disable_user])).
Proof.
  intros all_users disable_user.
  destruct (subprocess_run h all_users w) as [r1 w1] eqn:H1.
  destruct (subprocess_run h disable_user w1) as [r2 w2] eqn:H2.
  unfold adb.disable, try_finally, try_except, bind, adb.run_adb_command,
    call, ret.
  cbn [world trace]. fold all_users disable_user. rewrite H1.
  destruct r1 as [e1|out1]; cbn [world trace]; rewrite H2;
    destruct r2 as [e2|out2]; rewrite <- app_assoc; reflexivity.
Qed.

End Operations.

(** ** The whole run *)

Section WholeRun.
Context {h : Host}.
Variables to_freezze to_install_from_playstore to_uninstall : list string.

(** A loop whose body, on the packages of the list, only adds one
    event each, adds these events in the order of the list. *)
Lemma for_each_events {A : Type} (body : A -> M h unit) (ev : A -> Event)
  (l : list A) :
  (forall x, In x l -> forall s, exists w',
        body x s = (inr tt, mkState w' (trace s ++ [ev x]))) ->
  forall s, exists w',
    for_each l body s = (inr tt, mkState w' (trace s ++ map ev l)).
Proof.
  induction l as [|x l IH]; intros Hbody s; cbn [for_each map].
  - exists (world s). rewrite app_nil_r. destruct s; reflexivity.
  - unfold bind.
    destruct (Hbody x (or_introl eq_refl) s) as [w1 ->].
    destruct (IH (fun y Hy => Hbody y (or_intror Hy))
                (mkState w1 (trace s ++ [ev x]))) as [w' ->].
    exists w'. cbn [trace]. rewrite <- app_assoc. reflexivity.
Qed.

(** X15. Once [connect] has returned, and provided the two checks and
    the creation of the backup directory do not raise, [main] returns
    normally whatever the operations on the packages do. *)
Theorem main_runs_to_its_end (s s1 : State h) :
  main.connect s = (inr tt, s1) ->
  (forall w, exists out w',
      subprocess_run h listing_enabled w = (inr out, w')) ->
  (forall p w, exists out w',
      subprocess_run h (listing_installed p) w = (inr out, w')) ->
  (forall w, exists w',
      path_mkdir h (backup_directory h) w = (inr tt, w')) ->
  exists s',
    main.main to_freezze to_install_from_playstore to_uninstall s
    = (inr tt, s').
Proof.
  intros Hconnect Henabled Hinstalled Hmkdir.
  unfold main.main. unfold bind at 1. rewrite Hconnect.
  unfold bind at 1.
  destruct (for_each_total main.freeze_package to_freezze
              (fun x s0 => freeze_package_total x s0 Henabled) s1)
    as [s2 Hfreeze].
  unfold main.freeze. rewrite Hfreeze.
  unfold bind at 1. unfold main.uninstall. unfold bind at 1.
  unfold mkdir, call. fold (backup_directory h).
  destruct (Hmkdir (world s2)) as [w3 ->].
  destruct (for_each_total (main.uninstall_package (backup_directory h))
              to_uninstall
              (fun x s0 => uninstall_package_total _ x s0 Hinstalled)
              (mkState w3 (trace s2 ++ [Mkdir (backup_directory h)])))
    as [s4 ->].
  apply for_each_total. intros x s0.
  apply install_package_total, Hinstalled.
Qed.

(** X16. Run again on a device it has already set up, the script only
    looks: when the device is attached, no package to freeze is
    enabled, no package to uninstall is installed and every package to
    install is, [main] returns after the device listing, one
    enabled-check per package to freeze, the backup directory, and one
    installed-check per package to uninstall and to install, in that
    order; it changes nothing on the device and prints nothing. *)
Theorem main_on_settled_device_only_checks (s s1 : State h) :
  adb.is_connected s = (inr true, s1) ->
  (forall p w, In p to_freezze -> exists out w',
      subprocess_run h listing_enabled w = (inr out, w') /\
      py.str_in p out = false) ->
  (forall p w, In p to_uninstall -> exists out w',
      subprocess_run h (listing_installed p) w = (inr out, w') /\
      py.str_in p out = false) ->
  (forall p w, In p to_install_from_playstore -> exists out w',
      subprocess_run h (listing_installed p) w = (inr out, w') /\
      py.str_in p out = true) ->
  (forall w, exists w',
      path_mkdir h (backup_directory h) w = (inr tt, w')) ->
  exists s',
    main.main to_freezze to_install_from_playstore to_uninstall s
    = (inr tt, s') /\
    trace s'
    = (trace s ++ [Run ["adb"; "devices"]]
       ++ map (fun _ => Run listing_enabled) to_freezze
       ++ [Mkdir (backup_directory h)]
       ++ map (fun p => Run (listing_installed p)) to_uninstall
       ++ map (fun p => Run (listing_installed p))
              to_install_from_playstore)%list.
Proof.
  intros Hconnected Hfrozen Habsent Hpresent Hmkdir.
  pose proof (is_connected_trace _ _ _ Hconnected) as Htr1.
  assert (Hfreeze : forall s0 : State h, exists w',
             main.freeze to_freezze s0
             = (inr tt,
                mkState w' (trace s0
                            ++ map (fun _ => Run listing_enabled) to_freezze))).
  { apply for_each_events. intros p Hp s0.
    destruct (Hfrozen p (world s0) Hp) as (out & w' & Hrun & Hout).
    exists w'. unfold main.freeze_package, adb.is_enabled, bind.
    rewrite run_adb_command_eq. fold listing_enabled. rewrite Hrun.
    cbn [fst snd]. unfold ret. rewrite Hout. reflexivity. }
  assert (Huninstall : forall s0 : State h, exists w',
             main.uninstall to_uninstall s0
             = (inr tt,
                mkState w' ((trace s0 ++ [Mkdir (backup_directory h)])
                            ++ map (fun p => Run (listing_installed p))
                                   to_uninstall))).
  { intros s0. unfold main.uninstall, bind, mkdir, call.
    fold (backup_directory h).
    destruct (Hmkdir (world s0)) as [w1 ->].
    apply for_each_events. intros p Hp s2.
    destruct (Habsent p (world s2) Hp) as (out & w' & Hrun & Hout).
    exists w'. unfold main.uninstall_package, adb.is_installed, bind.
    rewrite run_adb_command_eq. fold (listing_installed p). rewrite Hrun.
    cbn [fst snd]. unfold ret. rewrite Hout. reflexivity. }
  assert (Hinstall : forall s0 : State h, exists w',
             main.install_from_playstore to_install_from_playstore s0
             = (inr tt,
                mkState w' (trace s0
                            ++ map (fun p => Run (listing_installed p))
                                   to_install_from_playstore))).
  { apply for_each_events. intros p Hp s0.
    destruct (Hpresent p (world s0) Hp) as (out & w' & Hrun & Hout).
    exists w'. unfold main.install_package, adb.is_installed, bind.
    rewrite run_adb_command_eq. fold (listing_installed p). rewrite Hrun.
    cbn [fst snd]. unfold ret. rewrite Hout. reflexivity. }
  assert (Hconnect : main.connect s = (inr tt, s1)).
  { unfold main.connect, bind. rewrite Hconnected. reflexivity. }
  unfold main.main, bind. rewrite Hconnect.
  destruct (Hfreeze s1) as [w2 ->].
  edestruct Huninstall as [w3 Hu]. rewrite Hu. clear Hu.
  edestruct Hinstall as [w4 Hi]. rewrite Hi. clear Hi.
  eexists. split; [reflexivity|].
  cbn [trace]. rewrite Htr1, <- !app_assoc. reflexivity.
Qed.

End WholeRun.

(** ** [connect] and the tap *)

Section ConnectAndTap.
Context {h : Host}.

(** X17. Whatever the surroundings answer, what [connect] adds to the
    trace is a beginning of one fixed sequence: the device listing, the
    prompt for the address, the connect command, a second listing, the
    notice, the two pairing prompts, the pair command and the connect
    command again with the same address.  So it lists the devices at
    most twice, reads at most three lines, pairs at most once and does
    not look whether the last connect attached the device. *)
Theorem connect_events_bounded (s : State h) :
  exists url pairing_url code m,
    trace (snd (main.connect s))
    = (trace s ++ firstn m (connect_events url pairing_url code))%list.
Proof.
  destruct s as [w tr].
  unfold main.connect, adb.is_connected, adb.connect, adb.pair, input, print,
    bind, adb.run_adb_command, call, ret.
  cbn [world trace].
  destruct (subprocess_run h ["adb"; "devices"] w) as [[e|out] w1];
    [exists "", "", "", 1%nat; reflexivity|].
  destruct (py.any _ _); cbn [negb];
    [exists "", "", "", 1%nat; reflexivity|].
  cbn [world trace].
  destruct (stdin_input h "URL: " w1) as [[e|url] w2];
    [exists "", "", "", 2%nat; cbn; rewrite <- app_assoc; reflexivity|].
  cbn [world trace].
  destruct (subprocess_run h ["adb"; "connect"; url] w2) as [[e|out2] w3];
    [exists url, "", "", 3%nat; cbn; rewrite <- !app_assoc; reflexivity|].
  cbn [world trace].
  destruct (subprocess_run h ["adb"; "devices"] w3) as [[e|out3] w4];
    [exists url, "", "", 4%nat; cbn; rewrite <- !app_assoc; reflexivity|].
  destruct (py.any _ _); cbn [negb];
    [exists url, "", "", 4%nat; cbn; rewrite <- !app_assoc; reflexivity|].
  cbn [world trace].
  destruct (stdin_input h "Pairing URL: " w4) as [[e|pairing_url] w5];
    [exists url, "", "", 6%nat; cbn; rewrite <- !app_assoc; reflexivity|].
  cbn [world trace].
  destruct (stdin_input h "Pairing code: " w5) as [[e|code] w6];
    [exists url, "", "", 7%nat; cbn; rewrite <- !app_assoc; reflexivity|].
  cbn [world trace].
  destruct (subprocess_run h ["adb"; "pair"; pairing_url; code] w6)
    as [[e|out4] w7];
    [exists url, pairing_url, code, 8%nat; cbn; rewrite <- !app_assoc;
     reflexivity|].
  cbn [world trace].
  exists url, pairing_url, code, 9%nat.
  destruct (subprocess_run h ["adb"; "connect"; url] w7) as [[e|out5] w8];
    cbn; rewrite <- !app_assoc; reflexivity.
Qed.

(** The locator on a document with the button, as a statement about
    the loop and the closing statements together. *)
Lemma find_install_button_found
  (roots : list etree.Element) (w w1 w' : World h) (tr : list Event)
  (root node : etree.Element) (pre post : list etree.Element)
  (x1 y1 x2 y2 : Z) :
  serves w roots w1 ->
  Forall no_install roots ->
  (List.length roots < adb.max_attempts)%nat ->
  retrieves w1 root w' ->
  ui_nodes root = (pre ++ node :: post)%list ->
  Forall (fun n => label n <> Some "Install") pre ->
  label node = Some "Install" ->
  etree.get "bounds" (etree.attrib node) = Some (bounds_string x1 y1 x2 y2) ->
  adb.find_install_button (mkState w tr)
  = (inr (Some ((x1 + x2) / 2, (y1 + y2) / 2)),
     mkState w' ((tr ++ attempts_events (List.length roots))
                 ++ attempt_events)).
Proof.
  intros Hserves Hall Hlen Hroot Hnodes Hpre Hnode Hbounds.
  unfold adb.find_install_button, bind.
  replace adb.max_attempts
    with (List.length roots + S (adb.max_attempts - S (List.length roots)))%nat
    by lia.
  rewrite (loop_skips _ _ _ Hserves Hall).
  rewrite (loop_attempt _ _ _ _ _ Hroot).
  rewrite Hnodes, (next_install_first _ _ _ Hpre Hnode).
  unfold lift. rewrite (bounds_center_of_string _ _ _ _ _ Hbounds).
  reflexivity.
Qed.

(** X18. [install_from_playstore] opens the page of the package,
    waits for the button and taps the middle of the first node labelled
    [Install]: the tap command carries the decimal text of
    [(x1+x2)//2] and [(y1+y2)//2], and the function ends as that
    command ends. *)
Theorem install_from_playstore_taps_the_button
  (package out : string) (roots : list etree.Element)
  (w w0 w1 w2 : World h) (tr : list Event)
  (root node : etree.Element) (pre post : list etree.Element)
  (x1 y1 x2 y2 : Z) :
  subprocess_run h (navigate_command package) w = (inr out, w0) ->
  serves w0 roots w1 ->
  Forall no_install roots ->
  (List.length roots < adb.max_attempts)%nat ->
  retrieves w1 root w2 ->
  ui_nodes root = (pre ++ node :: post)%list ->
  Forall (fun n => label n <> Some "Install") pre ->
  label node = Some "Install" ->
  etree.get "bounds" (etree.attrib node) = Some (bounds_string x1 y1 x2 y2) ->
  let tap := tap_command ((x1 + x2) / 2) ((y1 + y2) / 2) in
  adb.install_from_playstore package (mkState w tr)
  = (match fst (subprocess_run h tap w2) with
     | inl e => inl e
     | inr _ => inr tt
     end,
     mkState (snd (subprocess_run h tap w2))
       (tr ++ [Run (navigate_command package)]
           ++ attempts_events (List.length roots)
           ++ attempt_events ++ [Run tap])).
Proof.
  intros Hnav Hserves Hall Hlen Hroot Hnodes Hpre Hnode Hbounds tap.
  unfold adb.install_from_playstore, adb.navigate_playstore,
    adb.click_install_in_playstore. unfold bind at 1. unfold bind at 1.
  rewrite run_adb_command_eq. fold (navigate_command package).
  cbn [world trace]. rewrite Hnav. cbn [fst snd]. unfold ret at 1.
  unfold bind at 1.
  rewrite (find_install_button_found _ _ _ _ _ _ _ _ _ _ _ _ _
             Hserves Hall Hlen Hroot Hnodes Hpre Hnode Hbounds).
  unfold adb.tap, bind. rewrite run_adb_command_eq.
  fold (tap_command ((x1 + x2) / 2) ((y1 + y2) / 2)). fold tap.
  cbn [world trace].
  destruct (subprocess_run h tap w2) as [[e|out'] w3]; cbn [fst snd];
    rewrite <- !app_assoc; reflexivity.
Qed.

End ConnectAndTap.

(** * Instances of the further properties *)

(** An application with a split APK: only the base APK is pulled. *)
Lemma extract_pulls_first_path_witness :
  adb.extract "com.samsung.android.app.notes" "/home/user/sapps"
    (start two_documents
       [inr ("package:/data/app/Notes/base.apk" ++ py.nl ++
             "package:/data/app/Notes/split_config.arm64_v8a.apk" ++ py.nl);
        inr "1 file pulled"] [])
  = (inr tt,
     finished two_documents
       [Run (path_command "com.samsung.android.app.notes");
        Run (pull_command "/data/app/Notes/base.apk" "/home/user/sapps"
               "com.samsung.android.app.notes")]).
Proof.
  apply (extract_pulls_first_path
           (h := scripted two_documents)
           "com.samsung.android.app.notes" "/home/user/sapps"
           "/data/app/Notes/base.apk"
           (py.nl ++ "package:/data/app/Notes/split_config.arm64_v8a.apk"
              ++ py.nl)
           ([inr ("package:/data/app/Notes/base.apk" ++ py.nl ++
                  "package:/data/app/Notes/split_config.arm64_v8a.apk"
                  ++ py.nl);
             inr "1 file pulled"], [])
           ([inr "1 file pulled"], []) []).
  - reflexivity.
  - discriminate.
  - reflexivity.
  - right. eexists. reflexivity.
Defined.

(** An empty answer of [pm path]: nothing is pulled. *)
Lemma extract_without_path_pulls_nothing_witness :
  adb.extract "com.samsung.android.app.notes" "/home/user/sapps"
    (start two_documents [inr py.nl; inr "unused"] [])
  = (inr tt,
     @mkState (scripted two_documents) ([inr "unused"], [])
       [Run (path_command "com.samsung.android.app.notes")]).
Proof.
  apply (extract_without_path_pulls_nothing
           (h := scripted two_documents)
           "com.samsung.android.app.notes" "/home/user/sapps" py.nl
           ([inr py.nl; inr "unused"], []) ([inr "unused"], []) []);
    reflexivity.
Defined.

(** The header of [adb devices] alone does not count as a device. *)
Lemma is_connected_skips_first_line_witness :
  adb.is_connected (start two_documents [inr "List of devices attached"] [])
  = (inr false, finished two_documents [Run ["adb"; "devices"]]) /\
  adb.is_connected
    (start two_documents
       [inr ("List of devices attached" ++ py.nl ++ "emulator-5554 device")]
       [])
  = (inr true, finished two_documents [Run ["adb"; "devices"]]).
Proof.
  split.
  - apply (proj2 (is_connected_skips_first_line
                    (h := scripted two_documents)
                    "List of devices attached"
                    ([inr "List of devices attached"], []) ([], []) []
                    eq_refl)).
    reflexivity.
  - apply (proj1 (is_connected_skips_first_line
                    (h := scripted two_documents)
                    "List of devices attached"
                    ([inr ("List of devices attached" ++ py.nl
                           ++ "emulator-5554 device")], []) ([], []) []
                    eq_refl) "emulator-5554 device").
    reflexivity.
Defined.

(** A package named in the second line of the listing is found. *)
Lemma listed_package_is_found_witness :
  adb.is_installed "com.samsung.android.app.notes"
    (start two_documents
       [inr ("package:com.android.settings" ++ py.nl ++
             "package:com.samsung.android.app.notes" ++ py.nl)] [])
  = (inr true,
     finished two_documents
       [Run (listing_installed "com.samsung.android.app.notes")]).
Proof.
  apply (proj1 (listed_package_is_found
                  (h := scripted two_documents)
                  "com.samsung.android.app.notes"
                  ("package:com.android.settings" ++ py.nl) py.nl
                  ([inr ("package:com.android.settings" ++ py.nl ++
                         "package:com.samsung.android.app.notes" ++ py.nl)],
                   [])
                  ([], []) [])).
  reflexivity.
Defined.

(** The middle of the second button lies inside its rectangle. *)
Lemma bounds_center_inside_rectangle_witness :
  exists x y,
    adb.bounds_center second_button = inr (x, y) /\
    100 <= x <= 301 /\ 200 <= y <= 400.
Proof.
  apply (bounds_center_inside_rectangle second_button 100 200 301 400).
  - reflexivity.
  - lia.
  - lia.
Defined.

(** A node without [bounds], and one with three fields only. *)
Lemma bounds_center_errors_witness :
  adb.bounds_center (etree.Elem "node" [("text", "Install")] [])
  = inl AttributeError /\
  (adb.bounds_center
     (etree.Elem "node" [("text", "Install"); ("bounds", "[0,0][50]")] [])
   = inl ValueError \/
   exists x y,
     adb.bounds_center
       (etree.Elem "node" [("text", "Install"); ("bounds", "[0,0][50]")] [])
     = inr (x, y)).
Proof.
  split.
  - apply (proj2 (proj1 (bounds_center_errors
                           (etree.Elem "node" [("text", "Install")] [])))).
    reflexivity.
  - apply (proj2 (bounds_center_errors
                    (etree.Elem "node"
                       [("text", "Install"); ("bounds", "[0,0][50]")] []))).
    discriminate.
Defined.

(** [None] on the scripted host: five retrievals were served. *)
Lemma find_install_button_none_inv_witness :
  exists roots,
    serves (h := scripted two_documents)
      (retrievals 5 "<without/>", []) roots ([], []) /\
    List.length roots = adb.max_attempts /\
    Forall no_install roots.
Proof.
  apply (find_install_button_none_inv
           (h := scripted two_documents)
           (retrievals 5 "<without/>", []) []
           (finished two_documents (attempts_events 5))).
  reflexivity.
Defined.

(** [(20, 30)] on the scripted host is the middle of a first button. *)
Lemma find_install_button_some_inv_witness :
  exists roots w1 root pre node post,
    serves (h := scripted two_documents)
      ((retrievals 2 "<without/>" ++ retrieval "<two/>")%list, [])
      roots w1 /\
    Forall no_install roots /\
    (List.length roots < adb.max_attempts)%nat /\
    retrieves (h := scripted two_documents) w1 root ([], []) /\
    ui_nodes root = (pre ++ node :: post)%list /\
    Forall (fun n => label n <> Some "Install") pre /\
    label node = Some "Install" /\
    adb.bounds_center node = inr (20, 30).
Proof.
  apply (find_install_button_some_inv
           (h := scripted two_documents)
           ((retrievals 2 "<without/>" ++ retrieval "<two/>")%list, []) []
           (finished two_documents (attempts_events 3)) (20, 30)).
  reflexivity.
Defined.

(** A page that never shows the button: the marker, and no tap. *)
Lemma missing_button_is_a_failure_witness :
  main.install_package "org.mozilla.firefox"
    (start two_documents
       (inr "" :: inr "Starting: Intent" :: retrievals 5 "<without/>") [])
  = (inr tt,
     finished two_documents
       ([Run (listing_installed "org.mozilla.firefox");
         Print "Installing: org.mozilla.firefox..." " ";
         Run ["adb"; "shell"; "am"; "start"; "-a";
              "android.intent.action.VIEW"; "-d";
              "market://details?id=org.mozilla.firefox"]]
        ++ attempts_events 5 ++ [failed_marker])).
Proof.
  apply (proj2 (missing_button_is_a_failure
                  (h := scripted two_documents) "org.mozilla.firefox"
                  (start two_documents
                     (inr "" :: inr "Starting: Intent"
                      :: retrievals 5 "<without/>") [])
                  (@mkState (scripted two_documents)
                     (inr "Starting: Intent" :: retrievals 5 "<without/>", [])
                     [Run (listing_installed "org.mozilla.firefox")])
                  (@mkState (scripted two_documents)
                     (retrievals 5 "<without/>", [])
                     [Run (listing_installed "org.mozilla.firefox");
                      Print "Installing: org.mozilla.firefox..." " ";
                      Run ["adb"; "shell"; "am"; "start"; "-a";
                           "android.intent.action.VIEW"; "-d";
                           "market://details?id=org.mozilla.firefox"]])
                  (finished two_documents
                     ([Run (listing_installed "org.mozilla.firefox");
                       Print "Installing: org.mozilla.firefox..." " ";
                       Run ["adb"; "shell"; "am"; "start"; "-a";
                            "android.intent.action.VIEW"; "-d";
                            "market://details?id=org.mozilla.firefox"]]
                      ++ attempts_events 5))
                  eq_refl eq_refl eq_refl)).
Defined.

(** [pm path] fails: the marker, and no uninstall command. *)
Lemma failed_extract_prevents_uninstall_witness :
  main.uninstall_package "/home/user/sapps" "com.samsung.android.app.notes"
    (start two_documents
       [inr "package:com.samsung.android.app.notes"; inr "Success";
        inl CalledProcessError; inr "unused"] [])
  = (inr tt,
     @mkState (scripted two_documents) ([inr "unused"], [])
       [Run (listing_installed "com.samsung.android.app.notes");
        Print "Uninstalling: com.samsung.android.app.notes..." " ";
        Run ["adb"; "shell"; "pm"; "clear"; "com.samsung.android.app.notes"];
        Run (path_command "com.samsung.android.app.notes");
        failed_marker]).
Proof.
  apply (proj1 (failed_extract_prevents_uninstall
                  (h := scripted two_documents)
                  "/home/user/sapps" "com.samsung.android.app.notes"
                  (start two_documents
                     [inr "package:com.samsung.android.app.notes";
                      inr "Success"; inl CalledProcessError; inr "unused"] [])
                  (@mkState (scripted two_documents)
                     ([inr "Success"; inl CalledProcessError; inr "unused"],
                      [])
                     [Run (listing_installed "com.samsung.android.app.notes")])
                  (@mkState (scripted two_documents)
                     ([inl CalledProcessError; inr "unused"], [])
                     [Run (listing_installed "com.samsung.android.app.notes");
                      Print "Uninstalling: com.samsung.android.app.notes..."
                        " ";
                      Run ["adb"; "shell"; "pm"; "clear";
                           "com.samsung.android.app.notes"]])
                  (@mkState (scripted two_documents) ([inr "unused"], [])
                     [Run (listing_installed "com.samsung.android.app.notes");
                      Print "Uninstalling: com.samsung.android.app.notes..."
                        " ";
                      Run ["adb"; "shell"; "pm"; "clear";
                           "com.samsung.android.app.notes"];
                      Run (path_command "com.samsung.android.app.notes")])
                  CalledProcessError eq_refl eq_refl eq_refl)).
Defined.

(** Every operation fails on the attached device, and [main] returns. *)
Lemma main_runs_to_its_end_witness :
  exists s',
    main.main
      ["com.sec.android.app.samsungapps"] ["org.mozilla.firefox"]
      ["com.sec.android.app.samsungapps"]
      (@mkState attached_failing_device tt [])
    = (inr tt, s').
Proof.
  apply (main_runs_to_its_end
           (h := attached_failing_device)
           ["com.sec.android.app.samsungapps"] ["org.mozilla.firefox"]
           ["com.sec.android.app.samsungapps"]
           (@mkState attached_failing_device tt [])
           (@mkState attached_failing_device tt [Run ["adb"; "devices"]])).
  - reflexivity.
  - intros []. eexists _, _. reflexivity.
  - intros p []. eexists _, _. reflexivity.
  - intros []. eexists. reflexivity.
Defined.

(** The settled device: five events, none of which changes anything. *)
Lemma main_on_settled_device_only_checks_witness :
  exists s',
    main.main
      ["com.samsung.android.bixby.agent"] ["org.mozilla.firefox"]
      ["com.samsung.android.app.notes"]
      (@mkState settled_device tt [])
    = (inr tt, s') /\
    trace s'
    = [Run ["adb"; "devices"];
       Run listing_enabled;
       Mkdir "/home/user/sapps";
       Run (listing_installed "com.samsung.android.app.notes");
       Run (listing_installed "org.mozilla.firefox")].
Proof.
  apply (main_on_settled_device_only_checks
           (h := settled_device)
           ["com.samsung.android.bixby.agent"] ["org.mozilla.firefox"]
           ["com.samsung.android.app.notes"]
           (@mkState settled_device tt [])
           (@mkState settled_device tt [Run ["adb"; "devices"]])).
  - reflexivity.
  - intros p [] [<-|[]]. eexists _, _. split; reflexivity.
  - intros p [] [<-|[]]. eexists _, _. split; reflexivity.
  - intros p [] [<-|[]]. eexists _, _. split; reflexivity.
  - intros []. eexists. reflexivity.
Defined.

(** The page shows the button after one screen without it. *)
Lemma install_from_playstore_taps_the_button_witness :
  adb.install_from_playstore "org.mozilla.firefox"
    (start two_documents
       (inr "Starting: Intent"
        :: retrievals 1 "<without/>" ++ retrieval "<two/>" ++ [inr ""])%list
       [])
  = (inr tt,
     finished two_documents
       ([Run (navigate_command "org.mozilla.firefox")]
        ++ attempts_events 2
        ++ [Run ["adb"; "shell"; "input"; "tap"; "20"; "30"]])).
Proof.
  apply (install_from_playstore_taps_the_button
           (h := scripted two_documents)
           "org.mozilla.firefox" "Starting: Intent"
           (repeat screen_without_button 1)
           (inr "Starting: Intent"
            :: retrievals 1 "<without/>" ++ retrieval "<two/>" ++ [inr ""],
            [])%list
           ((retrievals 1 "<without/>" ++ retrieval "<two/>" ++ [inr ""])%list,
            [])
           ((retrieval "<two/>" ++ [inr ""])%list, [])
           ([inr ""], []) []
           screen_with_two_buttons first_button
           [lowercase_node] [second_button] 10 20 30 40).
  - reflexivity.
  - apply (serves_without_button 1 (retrieval "<two/>" ++ [inr ""])%list).
  - apply (Forall_without_button 1).
  - unfold adb.max_attempts. cbn [List.length repeat]. lia.
  - eexists _, _, _. repeat split; reflexivity.
  - reflexivity.
  - repeat constructor. discriminate.
  - reflexivity.
  - reflexivity.
Defined.
